(** * BRFSS Type 2 Diabetes Analyzer: the React client and the survey pipeline

    The development has two layers.

    - [JS] and [App] embed [frontend/src/App.tsx]: the JavaScript values a
      response body decodes to, the component's state, and the three
      asynchronous handlers [runPrev], [runLogit] and [runRecode], written in
      a small state-and-exception monad that logs every observable effect
      (state setters, requests, alerts) in program order; then the inputs,
      the buttons, the returned JSX and sessions of user actions.
    - [Survey] models the statistical core (recoder, weighted aggregator,
      the terms of the regression) that the backend implements, and [Wire]
      the results as the client receives them; the backend sources are not
      part of the repository snapshot, so those definitions follow the
      specification. *)

From Corelib Require Import PrimFloat.
From Stdlib Require Import Uint63.
From Stdlib Require Import QArith Qcanon.
From stdpp Require Import base option list strings gmap.

#[local] Set Warnings "-register-all".
Local Open Scope string_scope.

(** ** JavaScript values *)

Module JS.

(** A JavaScript number is an IEEE 754 binary64, which is what the kernel's
    primitive floats are. *)
Definition number := float.

(** The values [await res.json()] can produce. An object is kept as the
    ordered list of its own properties (keys unique after parsing). *)
Inductive JSON : Type :=
| JNull
| JBool (b : bool)
| JNum (n : number)
| JStr (s : string)
| JArr (elems : list JSON)
| JObj (props : list (string * JSON)).

(** The values the component handles: a decoded JSON value, or [undefined],
    which the read of an absent property produces. *)
Inductive JSValue : Type :=
| VUndefined
| VJson (j : JSON).

(** The exceptions the handlers can meet. *)
Inductive Exn : Type :=
| FetchFailed      (* fetch() rejects: network error, CORS, ... *)
| JsonSyntaxError  (* res.json() rejects: the body is not JSON *)
| BodyReadFailed   (* res.blob() rejects *)
| TypeError        (* property read of null or undefined, call of a non-function,
                      conversion to a string of a value that has none *)
| InvalidChild.    (* React: "Objects are not valid as a React child" *)

(** ToBoolean: the falsy values are undefined, null, false, +0, -0, NaN and
    the empty string. Arrays and objects are always truthy. *)
Definition truthy (v : JSValue) : bool :=
  match v with
  | VUndefined | VJson JNull => false
  | VJson (JBool b) => b
  | VJson (JNum n) => negb (PrimFloat.is_zero n || PrimFloat.is_nan n)
  | VJson (JStr s) => negb (String.eqb s "")
  | VJson (JArr _) | VJson (JObj _) => true
  end.

(** Truthiness of a string-typed variable, as in [if (by) ...]. *)
Definition truthy_str (s : string) : bool := negb (String.eqb s "").

(** [a || b] *)
Definition js_or (a b : JSValue) : JSValue := if truthy a then a else b.

(** The own property [k] of a decoded object, [undefined] when absent. *)
Fixpoint own_property (k : string) (props : list (string * JSON)) : JSValue :=
  match props with
  | [] => VUndefined
  | (k', v) :: rest => if String.eqb k k' then VJson v else own_property k rest
  end.

(** [v.k] for a data field name [k] that no prototype defines (the client
    reads [table], [group], [prev], [term], [OR], [OR_low], [OR_high] and
    [P>|z|]): the own property of an object, [undefined] on any other
    value, and a TypeError on [null] and [undefined]. *)
Definition get_field (v : JSValue) (k : string) : Exn + JSValue :=
  match v with
  | VUndefined | VJson JNull => inl TypeError
  | VJson (JObj props) => inr (own_property k props)
  | VJson (JBool _) | VJson (JNum _) | VJson (JStr _) | VJson (JArr _) => inr VUndefined
  end.

(** Whether a decoded object has the own property [k]. *)
Fixpoint has_own (k : string) (props : list (string * JSON)) : bool :=
  match props with
  | [] => false
  | (k', _) :: rest => String.eqb k k' || has_own k rest
  end.

(** ToString, which [String(v)] and template interpolation apply. On a
    decoded object it looks for a callable [toString], then a callable
    [valueOf] that returns a primitive: an own property [toString] (data,
    so not callable) hides [Object.prototype.toString], and
    [Object.prototype.valueOf] returns the object, so the conversion throws
    a TypeError exactly when the object has an own [toString] key. An array
    joins the conversions of its elements. Every other value converts. *)
Fixpoint json_converts (j : JSON) : bool :=
  match j with
  | JObj props => negb (has_own "toString" props)
  | JArr elems => forallb json_converts elems
  | JNull | JBool _ | JNum _ | JStr _ => true
  end.

Definition converts (v : JSValue) : bool :=
  match v with
  | VUndefined => true
  | VJson j => json_converts j
  end.

(** What React accepts as a child: text, numbers, the values it shows as
    nothing ([null], [undefined], booleans) and arrays of these; a plain
    object makes it throw and unmount the tree. *)
Fixpoint json_valid_child (j : JSON) : bool :=
  match j with
  | JObj _ => false
  | JArr elems => forallb json_valid_child elems
  | JNull | JBool _ | JNum _ | JStr _ => true
  end.

Definition valid_child (v : JSValue) : bool :=
  match v with
  | VUndefined => true
  | VJson j => json_valid_child j
  end.

Definition number_of_nat (n : nat) : number :=
  PrimFloat.of_uint63 (Uint63.of_Z (Z.of_nat n)).

(** A string is kept as its bytes in UTF-8, a lone surrogate as the three
    bytes of its code; the browser counts a string in UTF-16 units. A byte
    that starts a code of the basic plane stands for one unit, a byte that
    starts a code beyond it for two, a continuation byte for none. *)
Definition utf16_units (c : Ascii.ascii) : nat :=
  let n := Ascii.N_of_ascii c in
  if (n <? 128)%N then 1
  else if (n <? 192)%N then 0
  else if (n <? 240)%N then 1
  else 2.

Fixpoint utf16_length (s : string) : nat :=
  match s with
  | EmptyString => 0
  | String c rest => utf16_units c + utf16_length rest
  end.

(** The high surrogate of a code beyond the basic plane, from the first
    three bytes of its four, as the string of that one unit. *)
Definition high_surrogate (b0 b1 b2 : N) : string :=
  let top := N.lor (N.shiftl (N.land b0 7) 8)
                   (N.lor (N.shiftl (N.land b1 63) 2) (N.shiftr (N.land b2 63) 4)) in
  let hi := (55232 + top)%N in
  String (Ascii.ascii_of_N (N.lor 224 (N.shiftr hi 12)))
    (String (Ascii.ascii_of_N (N.lor 128 (N.land (N.shiftr hi 6) 63)))
       (String (Ascii.ascii_of_N (N.lor 128 (N.land hi 63))) EmptyString)).

(** [s[0]] on a string: its first UTF-16 unit as a string, [undefined] on
    the empty string. *)
Definition first_unit (s : string) : JSValue :=
  match s with
  | EmptyString => VUndefined
  | String c0 rest =>
      let n0 := Ascii.N_of_ascii c0 in
      if (n0 <? 192)%N then VJson (JStr (String c0 EmptyString))
      else if (n0 <? 224)%N then VJson (JStr (String.substring 0 2 s))
      else if (n0 <? 240)%N then VJson (JStr (String.substring 0 3 s))
      else
        match rest with
        | String c1 (String c2 _) =>
            VJson (JStr (high_surrogate n0 (Ascii.N_of_ascii c1) (Ascii.N_of_ascii c2)))
        | _ => VJson (JStr (String c0 EmptyString))
        end
  end.

(** [v.length] *)
Definition get_length (v : JSValue) : Exn + JSValue :=
  match v with
  | VUndefined | VJson JNull => inl TypeError
  | VJson (JArr elems) => inr (VJson (JNum (number_of_nat (length elems))))
  | VJson (JStr s) => inr (VJson (JNum (number_of_nat (utf16_length s))))
  | VJson (JObj props) => inr (own_property "length" props)
  | VJson (JBool _) | VJson (JNum _) => inr VUndefined
  end.

(** [v[0]] *)
Definition get_first (v : JSValue) : Exn + JSValue :=
  match v with
  | VUndefined | VJson JNull => inl TypeError
  | VJson (JArr elems) =>
      inr (match elems with x :: _ => VJson x | [] => VUndefined end)
  | VJson (JStr s) => inr (first_unit s)
  | VJson (JObj props) => inr (own_property "0" props)
  | VJson (JBool _) | VJson (JNum _) => inr VUndefined
  end.

End JS.

(** ** The component: [frontend/src/App.tsx] *)

Module App.
Import JS.

(** *** Browser objects *)

Record File : Type := { file_name : string; file_bytes : string }.

Definition Blob : Type := string.

Inductive FormValue : Type :=
| FFile (f : File)
| FText (s : string).

(** A [FormData] is the ordered list of its entries; [append] adds at the
    end and never replaces. *)
Definition FormData : Type := list (string * FormValue).

Definition new_FormData : FormData := [].

Definition append (fd : FormData) (k : string) (v : FormValue) : FormData :=
  (fd ++ [(k, v)])%list.

Record Request : Type := { url : string; method : string; body : FormData }.

(** What the handlers can observe of a response: the outcome of
    [res.json()] (None: the promise rejects) and of [res.blob()]. The
    status is carried but no handler looks at it. *)
Record Response : Type :=
  { status : nat; json_result : option JSON; blob_result : option Blob }.

(** The world outside the component during one run of a handler: the
    build-time [VITE_API_BASE] variable, the server behind [fetch] (None:
    the promise rejects), and the URL that [URL.createObjectURL] mints for
    the blob it is given. A handler calls it at most once; every call mints
    a fresh URL, so another run has another [Env]. *)
Record Env : Type :=
  { VITE_API_BASE : option string;
    server : Request -> option Response;
    createObjectURL : Blob -> string }.

(** [const API_BASE = import.meta.env.VITE_API_BASE || 'http://localhost:8000'] *)
Definition API_BASE (env : Env) : string :=
  match VITE_API_BASE env with
  | Some s => if truthy_str s then s else "http://localhost:8000"
  | None => "http://localhost:8000"
  end.

(** *** Component state: the eight [useState] cells

    [by] is a reserved word of Rocq; the cell is [by_] here. [prevRows]
    and [orRows] are declared [PrevRow[] | null] and [ORRow[] | null], but
    they receive decoded JSON unchecked, so they hold any value. *)

Record AppState : Type :=
  { file : option File;
    by_ : string;
    covars : string;
    weightCol : string;
    prevRows : JSValue;
    orRows : JSValue;
    plotUrl : string;
    busy : bool }.

(** The state of the first render: the arguments of the [useState] calls. *)
Definition initial : AppState :=
  {| file := None; by_ := ""; covars := ""; weightCol := "_LLCPWT";
     prevRows := VJson JNull; orRows := VJson JNull; plotUrl := "";
     busy := false |}.

Definition with_file (f : option File) (s : AppState) : AppState :=
  {| file := f; by_ := by_ s; covars := covars s; weightCol := weightCol s;
     prevRows := prevRows s; orRows := orRows s; plotUrl := plotUrl s;
     busy := busy s |}.

Definition with_by (b : string) (s : AppState) : AppState :=
  {| file := file s; by_ := b; covars := covars s; weightCol := weightCol s;
     prevRows := prevRows s; orRows := orRows s; plotUrl := plotUrl s;
     busy := busy s |}.

Definition with_covars (c : string) (s : AppState) : AppState :=
  {| file := file s; by_ := by_ s; covars := c; weightCol := weightCol s;
     prevRows := prevRows s; orRows := orRows s; plotUrl := plotUrl s;
     busy := busy s |}.

Definition with_weightCol (w : string) (s : AppState) : AppState :=
  {| file := file s; by_ := by_ s; covars := covars s; weightCol := w;
     prevRows := prevRows s; orRows := orRows s; plotUrl := plotUrl s;
     busy := busy s |}.

Definition with_prevRows (v : JSValue) (s : AppState) : AppState :=
  {| file := file s; by_ := by_ s; covars := covars s; weightCol := weightCol s;
     prevRows := v; orRows := orRows s; plotUrl := plotUrl s; busy := busy s |}.

Definition with_orRows (v : JSValue) (s : AppState) : AppState :=
  {| file := file s; by_ := by_ s; covars := covars s; weightCol := weightCol s;
     prevRows := prevRows s; orRows := v; plotUrl := plotUrl s; busy := busy s |}.

Definition with_plotUrl (u : string) (s : AppState) : AppState :=
  {| file := file s; by_ := by_ s; covars := covars s; weightCol := weightCol s;
     prevRows := prevRows s; orRows := orRows s; plotUrl := u; busy := busy s |}.

Definition with_busy (b : bool) (s : AppState) : AppState :=
  {| file := file s; by_ := by_ s; covars := covars s; weightCol := weightCol s;
     prevRows := prevRows s; orRows := orRows s; plotUrl := plotUrl s; busy := b |}.

(** [const canRun = useMemo(() => !!file, [file])] *)
Definition canRun (s : AppState) : bool :=
  match file s with
  | Some _ => true
  | None => false
  end.

(** [disabled={!canRun || busy}], the same on the three buttons. *)
Definition disabled (s : AppState) : bool := negb (canRun s) || busy s.

(** *** Text the component produces *)

(** Pieces of displayed text. Number formatting and [JSON.stringify] are
    kept as calls on their arguments. *)
Inductive Text : Type :=
| TLit (s : string)
| TToString (v : JSValue)                  (* the string v converts to *)
| TStringify (v : JSValue) (indent : nat)  (* JSON.stringify(v, null, indent) *)
| TFixed (n : number) (digits : nat)       (* n.toFixed(digits) *)
| TExponential (n : number) (digits : nat) (* n.toExponential(digits) *)
| TChild (v : JSValue).                    (* {v} as a JSX child *)

(** [String(v)] and [`${v}`]: a TypeError when [v] does not convert. *)
Definition to_string (v : JSValue) : Exn + Text :=
  if converts v then inr (TToString v) else inl TypeError.

(** The line feed that the template literal of [runRecode] ends in. *)
Definition LF : string := String (Ascii.ascii_of_nat 10) EmptyString.

(** *** The declared row types and their run-time representation *)

(** [type PrevRow = { group: string; prev: number }] *)
Record PrevRow : Type := { group : string; prev : number }.

(** [type ORRow = { term: string; OR: number; OR_low: number;
    OR_high: number; ['P>|z|']: number }] *)
Record ORRow : Type :=
  { term : string; OR : number; OR_low : number; OR_high : number;
    P_gt_abs_z : number }.

(** The object a [PrevRow] is at run time. *)
Definition PrevRow_value (r : PrevRow) : JSON :=
  JObj [("group", JStr (group r)); ("prev", JNum (prev r))].

(** The object an [ORRow] is at run time. *)
Definition ORRow_value (r : ORRow) : JSON :=
  JObj [("term", JStr (term r)); ("OR", JNum (OR r));
        ("OR_low", JNum (OR_low r)); ("OR_high", JNum (OR_high r));
        ("P>|z|", JNum (P_gt_abs_z r))].

(** *** The "Results" section of the returned JSX *)

Definition and_then {A B : Type} (r : Exn + A) (k : A -> Exn + B) : Exn + B :=
  match r with
  | inl e => inl e
  | inr a => k a
  end.

Fixpoint map_exn {A B : Type} (f : A -> Exn + B) (l : list A) : Exn + list B :=
  match l with
  | [] => inr []
  | x :: rest =>
      and_then (f x) (fun y =>
      and_then (map_exn f rest) (fun ys => inr (y :: ys)))
  end.

(** [v.toFixed(d)]: only a number has the method. *)
Definition toFixed (v : JSValue) (d : nat) : Exn + Text :=
  match v with
  | VJson (JNum n) => inr (TFixed n d)
  | _ => inl TypeError
  end.

(** [v.toExponential(d)] *)
Definition toExponential (v : JSValue) (d : nat) : Exn + Text :=
  match v with
  | VJson (JNum n) => inr (TExponential n d)
  | _ => inl TypeError
  end.

(** [v.map(f)] on a decoded JSON value: only an array has the method. *)
Definition array_map {B : Type} (v : JSValue) (f : JSValue -> Exn + B) : Exn + list B :=
  match v with
  | VJson (JArr elems) => map_exn (fun x => f (VJson x)) elems
  | _ => inl TypeError
  end.

(** A table row is the list of its cells, a cell the list of its texts. *)
Definition TableRow : Type := list (list Text).

(** What [{x && (<table>...)}] evaluates to: the falsy [x] itself, or the
    table. *)
Inductive Rendered : Type :=
| RFalsy (v : JSValue)
| RTable (rows : list TableRow).

(** [<tr><td>{String(r.group)}</td><td>{r.prev.toFixed(3)}</td></tr>] *)
Definition prev_tr (r : JSValue) : Exn + TableRow :=
  and_then (get_field r "group") (fun g =>
  and_then (to_string g) (fun g_shown =>
  and_then (get_field r "prev") (fun p =>
  and_then (toFixed p 3) (fun shown =>
  inr [[g_shown]; [shown]])))).

(** [{prevRows && (... prevRows.map((r, i) => <tr>...</tr>) ...)}] *)
Definition prev_section (rows : JSValue) : Exn + Rendered :=
  if truthy rows
  then and_then (array_map rows prev_tr) (fun trs => inr (RTable trs))
  else inr (RFalsy rows).

(** The four cells of one odds-ratio row: term, OR, the interval
    [OR_low–OR_high], and the p-value. [{r.term}] is handed to React as it
    is; React looks at it once the component function has returned, see
    [react_accepts]. *)
Definition or_tr (r : JSValue) : Exn + TableRow :=
  and_then (get_field r "term") (fun t =>
  and_then (get_field r "OR") (fun o =>
  and_then (toFixed o 2) (fun o_shown =>
  and_then (get_field r "OR_low") (fun lo =>
  and_then (toFixed lo 2) (fun lo_shown =>
  and_then (get_field r "OR_high") (fun hi =>
  and_then (toFixed hi 2) (fun hi_shown =>
  and_then (get_field r "P>|z|") (fun p =>
  and_then (toExponential p 2) (fun p_shown =>
  inr [[TChild t]; [o_shown]; [lo_shown; TLit "–"; hi_shown]; [p_shown]]))))))))).

(** React's check of the children it is handed, made after the rows have
    been built: one child it does not accept and the tree is gone. *)
Definition text_accepted (t : Text) : bool :=
  match t with
  | TChild v => valid_child v
  | TLit _ | TToString _ | TStringify _ _ | TFixed _ _ | TExponential _ _ => true
  end.

Definition row_accepted (tr : TableRow) : bool := forallb (forallb text_accepted) tr.

Definition react_accepts (trs : list TableRow) : Exn + unit :=
  if forallb row_accepted trs then inr tt else inl InvalidChild.

(** [{orRows && (... orRows.map((r, i) => <tr>...</tr>) ...)}], as it
    reaches the page: the rows are built, then React takes or refuses
    them. *)
Definition or_section (rows : JSValue) : Exn + Rendered :=
  if truthy rows
  then and_then (array_map rows or_tr) (fun trs =>
       and_then (react_accepts trs) (fun _ => inr (RTable trs)))
  else inr (RFalsy rows).

(** *** Effects *)

(** Everything a handler does that is visible from outside, in program
    order. *)
Inductive Event : Type :=
| EvSetBusy (b : bool)
| EvFetch (r : Request)
| EvSetPrevRows (v : JSValue)
| EvSetOrRows (v : JSValue)
| EvSetPlotUrl (u : string)
| EvAlert (msg : list Text).

Record World : Type := { react : AppState; trace : list Event }.

(** An asynchronous computation: it runs in a world, ends in an exception
    (a rejected promise) or a value, and leaves a world. *)
Definition Async (A : Type) : Type := World -> (Exn + A) * World.

#[export] Instance Async_ret : MRet Async :=
  fun A (a : A) w => (inr a, w).

#[export] Instance Async_bind : MBind Async :=
  fun A B (k : A -> Async B) (m : Async A) w =>
    match m w with
    | (inl e, w') => (inl e, w')
    | (inr a, w') => k a w'
    end.

Definition throw {A : Type} (e : Exn) : Async A := fun w => (inl e, w).

(** [try { body } finally { fin }]: [fin] runs on both exits; the outcome is
    the body's unless [fin] itself throws. *)
Definition try_finally {A : Type} (body : Async A) (fin : Async unit) : Async A :=
  fun w =>
    match body w with
    | (r, w1) =>
        match fin w1 with
        | (inl e, w2) => (inl e, w2)
        | (inr _, w2) => (r, w2)
        end
    end.

Definition lift {A : Type} (r : Exn + A) : Async A := fun w => (r, w).

Definition effect (upd : AppState -> AppState) (ev : Event) : Async unit :=
  fun w => (inr tt, {| react := upd (react w); trace := (trace w ++ [ev])%list |}).

Definition setBusy (b : bool) : Async unit := effect (with_busy b) (EvSetBusy b).
Definition setPrevRows (v : JSValue) : Async unit := effect (with_prevRows v) (EvSetPrevRows v).
Definition setOrRows (v : JSValue) : Async unit := effect (with_orRows v) (EvSetOrRows v).
Definition setPlotUrl (u : string) : Async unit := effect (with_plotUrl u) (EvSetPlotUrl u).
Definition alert (msg : list Text) : Async unit := effect id (EvAlert msg).

(** [await fetch(url, { method: 'POST', body: fd })] *)
Definition fetch (env : Env) (u : string) (fd : FormData) : Async Response :=
  let req := {| url := u; method := "POST"; body := fd |} in
  _ ← effect id (EvFetch req);
  match server env req with
  | Some res => mret res
  | None => throw FetchFailed
  end.

(** [await res.json()] *)
Definition json (res : Response) : Async JSValue :=
  match json_result res with
  | Some j => mret (VJson j)
  | None => throw JsonSyntaxError
  end.

(** [await res.blob()] *)
Definition blob (res : Response) : Async Blob :=
  match blob_result res with
  | Some b => mret b
  | None => throw BodyReadFailed
  end.

(** *** The handlers

    Each handler is a closure over the state of the render that created
    it: [c] below. It reads [file], [by], [covars] and [weightCol] from
    [c]; its setters act on the world. *)

Definition runPrev (env : Env) (c : AppState) : Async unit :=
  match file c with
  | None => mret tt
  | Some f =>
      _ ← setBusy true;
      try_finally
        (let fd := new_FormData in
         let fd := append fd "file" (FFile f) in
         let fd := if truthy_str (by_ c) then append fd "by" (FText (by_ c)) else fd in
         let fd := if truthy_str (weightCol c)
                   then append fd "weight_col" (FText (weightCol c)) else fd in
         res ← fetch env (API_BASE env ++ "/prevalence") fd;
         data ← json res;
         _ ← setPrevRows data;
         (* Plot *)
         let plotFD := new_FormData in
         let plotFD := append plotFD "file" (FFile f) in
         let plotFD := if truthy_str (by_ c)
                       then append plotFD "by" (FText (by_ c)) else plotFD in
         let plotFD := if truthy_str (weightCol c)
                       then append plotFD "weight_col" (FText (weightCol c)) else plotFD in
         plotRes ← fetch env (API_BASE env ++ "/plot/prevalence") plotFD;
         b ← blob plotRes;
         setPlotUrl (createObjectURL env b))
        (setBusy false)
  end.

Definition runLogit (env : Env) (c : AppState) : Async unit :=
  match file c with
  | None => mret tt
  | Some f =>
      _ ← setBusy true;
      try_finally
        (let fd := new_FormData in
         let fd := append fd "file" (FFile f) in
         let fd := if truthy_str (covars c)
                   then append fd "covars_csv" (FText (covars c)) else fd in
         let fd := if truthy_str (weightCol c)
                   then append fd "weight_col" (FText (weightCol c)) else fd in
         res ← fetch env (API_BASE env ++ "/logit") fd;
         data ← json res;
         table ← lift (get_field data "table");
         setOrRows (js_or table (VJson JNull)))
        (setBusy false)
  end.

Definition runRecode (env : Env) (c : AppState) : Async unit :=
  match file c with
  | None => mret tt
  | Some f =>
      _ ← setBusy true;
      try_finally
        (let fd := new_FormData in
         let fd := append fd "file" (FFile f) in
         let fd := if truthy_str (weightCol c)
                   then append fd "weight_col" (FText (weightCol c)) else fd in
         res ← fetch env (API_BASE env ++ "/recode") fd;
         data ← json res;
         len ← lift (get_length data);
         len_shown ← lift (to_string len);
         first ← lift (get_first data);
         alert [TLit "Recode done. Preview rows: "; len_shown;
                TLit (". Showing first 1: " ++ LF); TStringify first 2])
        (setBusy false)
  end.

(** The three buttons of the "Run Tasks" section. *)
Inductive Handler : Type := RunRecode | RunPrev | RunLogit.

Definition handler (h : Handler) : Env -> AppState -> Async unit :=
  match h with
  | RunRecode => runRecode
  | RunPrev => runPrev
  | RunLogit => runLogit
  end.

(** One run seen alone: the handler created by the render of state [s]
    runs to completion in a world that starts in [s] with an empty trace.
    What a run does between the actions of the user is [step], below. *)
Definition invoke (h : Handler) (env : Env) (s : AppState) : (Exn + unit) * World :=
  handler h env s {| react := s; trace := [] |}.

Definition outcome (h : Handler) (env : Env) (s : AppState) : Exn + unit :=
  fst (invoke h env s).

Definition final (h : Handler) (env : Env) (s : AppState) : AppState :=
  react (snd (invoke h env s)).

Definition events (h : Handler) (env : Env) (s : AppState) : list Event :=
  trace (snd (invoke h env s)).

(** *** Reading a form and a trace *)

(** [fd.get(k)]: the first entry under key [k]. *)
Fixpoint form_get (k : string) (fd : FormData) : option FormValue :=
  match fd with
  | [] => None
  | (k', v) :: rest => if String.eqb k k' then Some v else form_get k rest
  end.

(** The requests of a trace, in the order they were issued. *)
Fixpoint requests (evs : list Event) : list Request :=
  match evs with
  | [] => []
  | EvFetch r :: rest => r :: requests rest
  | _ :: rest => requests rest
  end.

(** An optional form entry: present when the value is a non-empty string. *)
Definition optional_entry (k v : string) : FormData :=
  if truthy_str v then [(k, FText v)] else [].

(** The four requests, as the handlers of a render of state [c] with file
    [f] build them. *)
Definition prevalence_request (env : Env) (c : AppState) (f : File) : Request :=
  {| url := API_BASE env ++ "/prevalence"; method := "POST";
     body := (("file", FFile f) :: optional_entry "by" (by_ c)
              ++ optional_entry "weight_col" (weightCol c))%list |}.

Definition plot_request (env : Env) (c : AppState) (f : File) : Request :=
  {| url := API_BASE env ++ "/plot/prevalence"; method := "POST";
     body := (("file", FFile f) :: optional_entry "by" (by_ c)
              ++ optional_entry "weight_col" (weightCol c))%list |}.

Definition logit_request (env : Env) (c : AppState) (f : File) : Request :=
  {| url := API_BASE env ++ "/logit"; method := "POST";
     body := (("file", FFile f) :: optional_entry "covars_csv" (covars c)
              ++ optional_entry "weight_col" (weightCol c))%list |}.

Definition recode_request (env : Env) (c : AppState) (f : File) : Request :=
  {| url := API_BASE env ++ "/recode"; method := "POST";
     body := (("file", FFile f) :: optional_entry "weight_col" (weightCol c))%list |}.

(** The request a handler starts with. *)
Definition first_request (h : Handler) : Env -> AppState -> File -> Request :=
  match h with
  | RunRecode => recode_request
  | RunPrev => prevalence_request
  | RunLogit => logit_request
  end.

(** The world a handler leaves once its [finally] block has run from
    world [w]. *)
Definition finished (w : World) : World :=
  {| react := with_busy false (react w);
     trace := (trace w ++ [EvSetBusy false])%list |}.

(** The world after [setBusy(true)] and the issue of request [req]. *)
Definition started (s : AppState) (req : Request) : World :=
  {| react := with_busy true s; trace := [EvSetBusy true; EvFetch req] |}.

(** The world after a further setter call and its event. *)
Definition record (upd : AppState -> AppState) (evs : list Event) (w : World) : World :=
  {| react := upd (react w); trace := (trace w ++ evs)%list |}.

(** Whether a request carries an entry under key [k]. *)
Definition included (k : string) (req : Request) : Prop :=
  form_get k (body req) <> None.

(** The cells the "Results" tables show for a typed row. *)
Definition PrevRow_cells (r : PrevRow) : TableRow :=
  [[TToString (VJson (JStr (group r)))]; [TFixed (prev r) 3]].

Definition ORRow_cells (r : ORRow) : TableRow :=
  [[TChild (VJson (JStr (term r)))];
   [TFixed (OR r) 2];
   [TFixed (OR_low r) 2; TLit "–"; TFixed (OR_high r) 2];
   [TExponential (P_gt_abs_z r) 2]].

(** *** The inputs, the buttons and the whole render *)

(** [onChange={(e) => setFile(e.target.files?.[0] || null)}]: [files] is the
    input's [FileList], or None when it is [null]. Only the first file
    counts; an empty selection clears the cell. *)
Definition on_file_change (files : option (list File)) (s : AppState) : AppState :=
  with_file (match files with
             | Some (f :: _) => Some f
             | Some [] | None => None
             end) s.

(** [onChange={(e) => setBy(e.target.value)}] and its two siblings. *)
Definition on_by_change (value : string) (s : AppState) : AppState := with_by value s.
Definition on_weight_change (value : string) (s : AppState) : AppState :=
  with_weightCol value s.
Definition on_covars_change (value : string) (s : AppState) : AppState :=
  with_covars value s.

(** A value that [{x && ...}] never shows as a stray literal: [null], or
    truthy. *)
Definition null_or_truthy (v : JSValue) : Prop :=
  v = VJson JNull \/ truthy v = true.

(** The state change a logged event stands for: the setter calls write
    their cell, requests and alerts write nothing. *)
Definition replay_event (s : AppState) (ev : Event) : AppState :=
  match ev with
  | EvSetBusy b => with_busy b s
  | EvSetPrevRows v => with_prevRows v s
  | EvSetOrRows v => with_orRows v s
  | EvSetPlotUrl u => with_plotUrl u s
  | EvFetch _ | EvAlert _ => s
  end.

Definition replay (evs : list Event) (s : AppState) : AppState :=
  fold_left replay_event evs s.

(** What the user does, and what the browser does with a run in flight.
    A click carries the world its run meets. *)
Inductive Action : Type :=
| ChooseFiles (files : option (list File))
| TypeBy (value : string)
| TypeWeight (value : string)
| TypeCovars (value : string)
| Click (h : Handler) (env : Env)
| Resume (i : nat).

(** The component between two turns of the event loop: the rendered state,
    and for each run in flight the effects it has still to make. A run
    reads its closure and the answers of its world only, so what it will
    do is settled at the click. *)
Record Live : Type := { shown : AppState; in_flight : list (list Event) }.

Definition at_rest (s : AppState) : Live := {| shown := s; in_flight := [] |}.

(** The effects a run makes before it suspends again. A handler suspends
    at each [await]; its effects up to the next request it issues come in
    one turn, and nothing of the user's falls between them. *)
Fixpoint until_fetch (evs : list Event) : list Event * list Event :=
  match evs with
  | [] => ([], [])
  | EvFetch r :: rest => ([EvFetch r], rest)
  | ev :: rest =>
      match until_fetch rest with
      | (now, later) => (ev :: now, later)
      end
  end.

Definition advance (s : AppState) (evs : list Event) : AppState * list Event :=
  match until_fetch evs with
  | (now, later) => (replay now s, later)
  end.

(** One action. The inputs are never disabled. A disabled button fires no
    handler; an enabled one starts a run of the handler of the current
    render, which goes as far as its first request. [Resume i] lets run
    [i] in flight go on to its next request or to its end. *)
Definition step (l : Live) (a : Action) : Live :=
  match a with
  | ChooseFiles files =>
      {| shown := on_file_change files (shown l); in_flight := in_flight l |}
  | TypeBy v => {| shown := on_by_change v (shown l); in_flight := in_flight l |}
  | TypeWeight v =>
      {| shown := on_weight_change v (shown l); in_flight := in_flight l |}
  | TypeCovars v =>
      {| shown := on_covars_change v (shown l); in_flight := in_flight l |}
  | Click h env =>
      if disabled (shown l) then l
      else
        match advance (shown l) (events h env (shown l)) with
        | (s', []) => {| shown := s'; in_flight := in_flight l |}
        | (s', later) => {| shown := s'; in_flight := (in_flight l ++ [later])%list |}
        end
  | Resume i =>
      match in_flight l !! i with
      | None => l
      | Some evs =>
          match advance (shown l) evs with
          | (s', []) => {| shown := s'; in_flight := delete i (in_flight l) |}
          | (s', later) => {| shown := s'; in_flight := <[i := later]> (in_flight l) |}
          end
      end
  end.

(** A session: actions in order, from a live state. A render that throws
    takes the component off the page, and then none of this happens any
    more; the sessions here go on regardless, so they include every session
    of the component while it is on the page. *)
Definition session (actions : list Action) (l : Live) : Live :=
  fold_left step actions l.

(** The sessions in which nothing falls between a click and the end of
    its run: [run_alone] takes a click to the state [final] gives, and
    [settled] follows a click by the turns of its run (no handler has more
    than two requests). *)
Definition run_alone (s : AppState) (a : Action) : AppState :=
  match a with
  | ChooseFiles files => on_file_change files s
  | TypeBy v => on_by_change v s
  | TypeWeight v => on_weight_change v s
  | TypeCovars v => on_covars_change v s
  | Click h env => if disabled s then s else final h env s
  | Resume _ => s
  end.

Definition settled (a : Action) : list Action :=
  match a with
  | Click h env => [Click h env; Resume 0; Resume 0]
  | Resume _ => []
  | ChooseFiles _ | TypeBy _ | TypeWeight _ | TypeCovars _ => [a]
  end.

(** Events that leave [busy] alone, and what a run in flight looks like:
    effects that leave [busy] alone, then [setBusy(false)]. *)
Definition quiet (ev : Event) : Prop := forall b, ev <> EvSetBusy b.

Definition closing (evs : list Event) : Prop :=
  exists mid, evs = (mid ++ [EvSetBusy false])%list /\ Forall quiet mid.

(** Setter calls on [orRows] that store [null] or a truthy value. *)
Definition or_ok (ev : Event) : Prop :=
  match ev with
  | EvSetOrRows v => null_or_truthy v
  | _ => True
  end.

(** Between two turns at most one run is in flight, and [busy] is up
    exactly while one is. *)
Definition one_run (l : Live) : Prop :=
  (in_flight l = [] /\ busy (shown l) = false)
  \/ (exists evs, in_flight l = [evs] /\ closing evs /\ busy (shown l) = true).

(** An event with the object URL it may carry blanked: two runs that
    differ only in the URL minted for the plot have the same events after
    [forget_plot]. *)
Definition forget_plot (ev : Event) : Event :=
  match ev with
  | EvSetPlotUrl _ => EvSetPlotUrl ""
  | _ => ev
  end.

(** The alerts of a trace, in order. *)
Fixpoint alerts (evs : list Event) : list (list Text) :=
  match evs with
  | [] => []
  | EvAlert msg :: rest => msg :: alerts rest
  | _ :: rest => alerts rest
  end.

(** The "Results" section: the prevalence table, the plot image (its
    [src], None when [plotUrl] is empty) and the odds-ratio table, evaluated
    in this order. An exception in one aborts the render. *)
Record ResultsView : Type :=
  { prev_view : Rendered; plot_view : option string; or_view : Rendered }.

Definition results (s : AppState) : Exn + ResultsView :=
  and_then (prev_section (prevRows s)) (fun p =>
  let img := if truthy_str (plotUrl s) then Some (plotUrl s) else None in
  and_then (or_section (orRows s)) (fun o =>
  inr {| prev_view := p; plot_view := img; or_view := o |})).

(** What the component function returns for a state: the three controlled
    inputs, the [disabled] attribute of the buttons, and the results. *)
Record View : Type :=
  { by_input : string; weight_input : string; covars_input : string;
    buttons_disabled : bool; results_view : ResultsView }.

Definition render (s : AppState) : Exn + View :=
  and_then (results s) (fun r =>
  inr {| by_input := by_ s; weight_input := weightCol s;
         covars_input := covars s; buttons_disabled := disabled s;
         results_view := r |}).

(** What it takes for an element to become a line and what the line
    shows: for the prevalence table an object whose [group] converts to a
    string, with a number under [prev]; for the odds-ratio table an object
    with numbers under [OR], [OR_low], [OR_high] and [P>|z|] and a [term]
    React accepts as a child. *)
Definition prev_row_shown (e : JSON) (tr : TableRow) : Prop :=
  exists props q,
    e = JObj props
    /\ converts (own_property "group" props) = true
    /\ own_property "prev" props = VJson (JNum q)
    /\ tr = [[TToString (own_property "group" props)]; [TFixed q 3]].

Definition or_row_shown (e : JSON) (tr : TableRow) : Prop :=
  exists props o lo hi p,
    e = JObj props
    /\ valid_child (own_property "term" props) = true
    /\ own_property "OR" props = VJson (JNum o)
    /\ own_property "OR_low" props = VJson (JNum lo)
    /\ own_property "OR_high" props = VJson (JNum hi)
    /\ own_property "P>|z|" props = VJson (JNum p)
    /\ tr = [[TChild (own_property "term" props)]; [TFixed o 2];
             [TFixed lo 2; TLit "–"; TFixed hi 2]; [TExponential p 2]].

(** Two states with the same four inputs. *)
Definition same_inputs (s s' : AppState) : Prop :=
  file s = file s' /\ by_ s = by_ s' /\ covars s = covars s'
  /\ weightCol s = weightCol s'.

(** *** The endpoints [backend/README.md] lists

    Method, path and the form fields of each. *)
Definition endpoints : list (string * string * list string) :=
  [ ("GET", "/health", []);
    ("POST", "/recode", ["file"; "weight_col"]);
    ("POST", "/prevalence", ["file"; "by"; "weight_col"]);
    ("POST", "/plot/prevalence", ["file"; "by"; "weight_col"]);
    ("POST", "/logit", ["file"; "covars_csv"; "weight_col"]) ].

End App.

(** ** The survey pipeline *)

Module Survey.

(** The backend that implements the pipeline (the FastAPI application
    behind the five endpoints of [backend/README.md]) is not among the
    sources; every definition of this module is modelled from the
    specification, section by section. *)

(** *** Data model *)

(** Modelled from the spec: the cells of a dataset, which the backend
    loads from the uploaded file (section 3). A cell holds a categorical
    code, a number or nothing. *)
Inductive Value : Type :=
| Cat (label : string)
| Num (q : Qc)
| Missing.

#[export] Instance Value_eq_dec : EqDecision Value.
Proof. solve_decision. Defined.

(** Modelled from the spec: the dataset of section 3. A respondent row
    maps column names to cells; a dataset is the ordered sequence of its
    rows. *)
Abbreviation Row := (gmap string Value).
Abbreviation Dataset := (list (gmap string Value)).

(** Modelled from the spec: reading a column of a row in the backend; a
    column the row does not carry reads as missing. *)
Definition cell (r : Row) (col : string) : Value := default Missing (r !! col).

(** *** Recoder *)

(** Modelled from the spec: the recoder of the backend, whose sources are
    not in the repository snapshot. Section 3 gives a fixed table of rules,
    each with a source column and a derived column: a code-to-category (or
    code-to-0/1) mapping in which a code outside the mapping becomes the
    missing sentinel, a continuous copy of a numeric measure, and a binning
    by edges closed on the left and open on the right with an unknown bin
    for missing or out-of-range input. Section 4.1: the recoder adds or
    overwrites the derived columns and preserves every other column. *)
Inductive Rule : Type :=
| MapCodes (src dst : string) (mapping : list (Value * Value)) (sentinel : Value)
| Continuous (src dst : string)
| Bins (src dst : string) (bins : list (Qc * Qc * string)) (unknown : string).

(** Modelled from the spec: the source column and the derived column of a
    recoding rule of the backend (section 3). *)
Definition rule_src (ρ : Rule) : string :=
  match ρ with
  | MapCodes src _ _ _ | Continuous src _ | Bins src _ _ _ => src
  end.

Definition rule_dst (ρ : Rule) : string :=
  match ρ with
  | MapCodes _ dst _ _ | Continuous _ dst | Bins _ dst _ _ => dst
  end.

(** Modelled from the spec: the code mapping of the backend's recoder,
    closed by the sentinel (section 3: a source code not in the mapping
    becomes the missing sentinel). *)
Fixpoint map_code (mapping : list (Value * Value)) (sentinel v : Value) : Value :=
  match mapping with
  | [] => sentinel
  | (code, category) :: rest =>
      if decide (v = code) then category else map_code rest sentinel v
  end.

(** Modelled from the spec: the binning of the backend's recoder (section
    4.1: each bin closed on the left, open on the right, plus an unknown
    bin). *)
Fixpoint find_bin (bins : list (Qc * Qc * string)) (unknown : string) (q : Qc) : string :=
  match bins with
  | [] => unknown
  | (lo, hi, label) :: rest =>
      if decide (lo <= q /\ q < hi)%Qc then label
      else find_bin rest unknown q
  end.

(** Modelled from the spec: the derived value a rule of the backend's
    recoder computes from the source cell; an input outside the declared
    domain resolves to the missing or unknown category (section 4.1). *)
Definition derive (ρ : Rule) (v : Value) : Value :=
  match ρ with
  | MapCodes _ _ mapping sentinel => map_code mapping sentinel v
  | Continuous _ _ => match v with Num q => Num q | _ => Missing end
  | Bins _ _ bins unknown =>
      match v with
      | Num q => Cat (find_bin bins unknown q)
      | _ => Cat unknown
      end
  end.

(** Modelled from the spec: one rule of the backend's recoder applied to a
    row; the derived column is added or overwritten, the other columns are
    preserved (section 4.1). *)
Definition apply_rule (r : Row) (ρ : Rule) : Row :=
  <[rule_dst ρ := derive ρ (cell r (rule_src ρ))]> r.

(** Modelled from the spec: the backend's recoding of a row, which applies
    the rules of the table in order. *)
Definition recode_row (rules : list Rule) (r : Row) : Row :=
  foldl apply_rule r rules.

(** Modelled from the spec: the recode operation of the backend; it recodes
    each row and yields a new dataset (section 3). *)
Definition recode (rules : list Rule) (ds : Dataset) : Dataset :=
  recode_row rules <$> ds.

(** The source columns of a row are intact when recoding leaves each of
    them as it was. *)
Definition sources_intact (rules : list Rule) (r : Row) : Prop :=
  Forall (fun ρ => cell (recode_row rules r) (rule_src ρ) = cell r (rule_src ρ)) rules.

(** *** Weighted aggregator *)

(** Modelled from the spec: the weight the backend gives a row, the
    numeric value of the weight column, and 1 when that value is absent or
    not numeric (section 3). *)
Definition weight_of (wcol : string) (r : Row) : Qc :=
  match r !! wcol with
  | Some (Num w) => w
  | _ => 1%Qc
  end.

(** Modelled from the spec: the binary outcome the backend's aggregator
    reads from a row, None when missing. *)
Definition outcome_of (ocol : string) (r : Row) : option Qc :=
  match r !! ocol with
  | Some (Num o) => Some o
  | _ => None
  end.

(** Modelled from the spec: the synthetic label the backend gives the
    single row of an ungrouped run (section 3). *)
Definition overall : Value := Cat "overall".

(** Modelled from the spec: the group the backend's aggregator puts a row
    in, the synthetic label when ungrouped, the value of the grouping
    column otherwise, and None when that value is missing (the row is then
    excluded, section 4.2). *)
Definition group_of (by_col : option string) (r : Row) : option Value :=
  match by_col with
  | None => Some overall
  | Some col =>
      match cell r col with
      | Missing => None
      | g => Some g
      end
  end.

(** The running sums of one group: weighted outcomes and weights. *)
Definition Sums : Type := (Qc * Qc)%type.

(** Modelled from the spec: what one row adds to the sums of its group in
    the backend's aggregator, its weighted outcome and its weight, and
    nothing when its outcome is missing (section 4.2). *)
Definition contribution (ocol wcol : string) (r : Row) : Sums :=
  match outcome_of ocol r with
  | Some o => ((weight_of wcol r * o)%Qc, weight_of wcol r)
  | None => (0%Qc, 0%Qc)
  end.

(** Modelled from the spec: the group table of the backend's aggregator.
    [bump] adds to the sums of group [g], entering [g] at the end of the
    table when it is seen for the first time (section 4.2: group order is
    first-seen order). *)
Fixpoint bump (g : Value) (c : Sums) (table : list (Value * Sums)) : list (Value * Sums) :=
  match table with
  | [] => [(g, c)]
  | (g', (n, d)) :: rest =>
      if decide (g = g') then (g', (n + fst c, d + snd c)%Qc) :: rest
      else (g', (n, d)) :: bump g c rest
  end.

(** Modelled from the spec: one step of the backend's aggregator. A row
    with a missing group is skipped; a row with a missing outcome makes its
    group seen and adds nothing. *)
Definition tally (ocol : string) (by_col : option string) (wcol : string)
    (table : list (Value * Sums)) (r : Row) : list (Value * Sums) :=
  match group_of by_col r with
  | None => table
  | Some g => bump g (contribution ocol wcol r) table
  end.

(** Modelled from the spec: the row the backend's aggregator reports for a
    group; a group whose weights sum to zero gets none (sections 3 and
    4.2). *)
Definition prevalence_row (entry : Value * Sums) : option (Value * Qc) :=
  match entry with
  | (g, (n, d)) => if decide (d = 0%Qc) then None else Some (g, (n / d)%Qc)
  end.

(** Modelled from the spec: the weighted aggregator of the backend
    (section 4.2), one pass over the dataset keeping the groups in
    first-seen order. *)
Definition prevalence (ocol : string) (by_col : option string) (wcol : string)
    (ds : Dataset) : list (Value * Qc) :=
  omap prevalence_row (foldl (tally ocol by_col wcol) [] ds).

(** The formula of section 4.2 in the spec's own words, to compare the
    aggregator with: the rows that count for group [g] are those whose
    outcome is not missing and whose group is [g]. *)
Definition counts_for (ocol : string) (by_col : option string) (g : Value) (r : Row) : bool :=
  bool_decide (group_of by_col r = Some g) && bool_decide (is_Some (outcome_of ocol r)).

Definition sumQc (l : list Qc) : Qc := foldr Qcplus 0%Qc l.

(** The numerator and the denominator of the formula: the sum of weight
    times outcome, and the sum of weights, over the rows that count. *)
Definition weighted_outcomes (ocol : string) (by_col : option string) (wcol : string)
    (g : Value) (ds : Dataset) : Qc :=
  sumQc ((fun r => (weight_of wcol r * default 0%Qc (outcome_of ocol r))%Qc)
         <$> filter (fun r => counts_for ocol by_col g r = true) ds).

Definition weights (ocol : string) (by_col : option string) (wcol : string)
    (g : Value) (ds : Dataset) : Qc :=
  sumQc (weight_of wcol <$> filter (fun r => counts_for ocol by_col g r = true) ds).

(** The sums a table holds for group [g]. *)
Fixpoint sums_of (g : Value) (table : list (Value * Sums)) : option Sums :=
  match table with
  | [] => None
  | (g', sums) :: rest => if decide (g = g') then Some sums else sums_of g rest
  end.

(** Group [g] is observed when some row of the dataset falls in it. *)
Definition observed (by_col : option string) (g : Value) (ds : Dataset) : Prop :=
  Exists (fun r => group_of by_col r = Some g) ds.

(** A whole number as a rational. *)
Definition whole (z : Z) : Qc := Q2Qc (inject_Z z).

(** *** Weighted regression estimator *)

(** Modelled from the spec: a covariate term of the backend's estimator, a
    raw numeric column or a categorical column to be expanded into
    indicator terms (section 4.3). *)
Inductive Covariate : Type :=
| Numeric (col : string)
| Categorical (col : string).

Definition covariate_col (c : Covariate) : string :=
  match c with
  | Numeric col | Categorical col => col
  end.

(** Modelled from the spec: the rows the backend's estimator fits on, those
    with an outcome and a value on every included covariate (section 4.3:
    complete-case analysis). *)
Definition complete_case (ocol : string) (covs : list Covariate) (r : Row) : bool :=
  bool_decide (is_Some (outcome_of ocol r))
  && forallb (fun c => bool_decide (cell r (covariate_col c) <> Missing)) covs.

Definition complete_cases (ocol : string) (covs : list Covariate) (ds : Dataset) : Dataset :=
  filter (fun r => complete_case ocol covs r = true) ds.

(** Modelled from the spec: the levels of a column of the backend's
    estimator, as an explicit enumeration in first-seen order (section 9). *)
Fixpoint first_seen (seen vs : list Value) : list Value :=
  match vs with
  | [] => []
  | v :: rest =>
      if decide (v ∈ seen) then first_seen seen rest
      else v :: first_seen (v :: seen) rest
  end.

Definition levels (col : string) (ds : Dataset) : list Value :=
  first_seen [] ((fun r => cell r col) <$> ds).

(** Modelled from the spec: the terms of the model the backend fits: the
    intercept, one slope per numeric covariate, and one indicator per level
    of a categorical covariate other than its reference level, which is the
    first level encountered (section 4.3). *)
Inductive Term : Type :=
| Intercept
| Slope (col : string)
| Indicator (col : string) (level : Value).

Definition expand (ds : Dataset) (c : Covariate) : list Term :=
  match c with
  | Numeric col => [Slope col]
  | Categorical col => Indicator col <$> tail (levels col ds)
  end.

(** Modelled from the spec: the terms of the backend's model, over the
    complete cases. The specification gives the intercept no position; it
    comes first here, the covariates follow in the order of the request. *)
Definition model_terms (ocol : string) (covs : list Covariate) (ds : Dataset) : list Term :=
  Intercept :: concat (expand (complete_cases ocol covs ds) <$> covs).


(** Modelled from the spec: a regression result row of the backend without
    its term (section 3): odds ratio, the two confidence bounds, p-value. *)
Record Estimate : Type :=
  { odds_ratio : JS.number; ci_low : JS.number; ci_high : JS.number;
    p_value : JS.number }.

(** Modelled from the spec: the numeric fit of the backend's estimator
    (maximum likelihood with the row weights as frequency weights, Wald
    intervals and tests, section 4.3) is not modelled; it is a parameter
    that gives, for the complete cases, the outcome column, the weight
    column and the terms, an estimate per term, or None for a reported
    estimation failure (separation, rank deficiency, non-convergence). *)
Definition Fit : Type :=
  Dataset -> string -> string -> list Term -> option (Term -> Estimate).

(** Modelled from the spec: the weighted regression estimator of the
    backend (section 4.3): one result row per model term, the intercept
    included, or a failure. *)
Definition regression (fit : Fit) (ocol : string) (covs : list Covariate) (wcol : string)
    (ds : Dataset) : option (list (Term * Estimate)) :=
  match fit (complete_cases ocol covs ds) ocol wcol (model_terms ocol covs ds) with
  | None => None
  | Some est => Some ((fun t => (t, est t)) <$> model_terms ocol covs ds)
  end.

End Survey.

(** ** The results on the wire *)

Module Wire.
Import JS App Survey.

(** The backend that serialises the results is not among the sources. The
    definitions of this module are modelled from the specification (section
    6: an ordered sequence of pairs, an ordered sequence of rows) under the
    field names the client declares in [PrevRow] and [ORRow] and the
    [table] field [runLogit] reads. *)

Section Encoding.

(** The binary64 number the backend reports for an exact proportion. *)
Variable enc : Qc -> number.

(** The name the backend gives a term. *)
Variable term_name : Term -> string.

(** Modelled from the spec: a group label of the backend in JSON, a string
    for a categorical code and a number for a numeric one. *)
Definition label (g : Value) : JSON :=
  match g with
  | Cat s => JStr s
  | Num q => JNum (enc q)
  | Missing => JNull
  end.



(** The line the prevalence table shows for a row of the aggregator. *)
Definition prev_cells (p : Value * Qc) : TableRow :=
  [[TToString (VJson (label (fst p)))]; [TFixed (enc (snd p)) 3]].

(** Modelled from the spec: a regression result row of the backend as the
    [ORRow] the client declares: term name, odds ratio, lower and upper
    bound, p-value (section 3). *)
Definition or_row (r : Term * Estimate) : ORRow :=
  {| term := term_name (fst r); OR := odds_ratio (snd r); OR_low := ci_low (snd r);
     OR_high := ci_high (snd r); P_gt_abs_z := p_value (snd r) |}.


End Encoding.


End Wire.

(** ** Concrete runs *)

Module Scenario.
Import JS App.

Definition brfss : File := {| file_name := "LLCP2023.parquet"; file_bytes := "PAR1" |}.

(** A server given by its routes; any other request fails at the network. *)
Fixpoint route (routes : list (string * Response)) (req : Request) : option Response :=
  match routes with
  | [] => None
  | (u, res) :: rest => if String.eqb (url req) u then Some res else route rest req
  end.

Definition serving (routes : list (string * Response)) : Env :=
  {| VITE_API_BASE := None; server := route routes;
     createObjectURL := fun b => "blob:http://localhost:5173/" ++ b |}.

Definition offline : Env := serving [].

Definition json_response (j : JSON) : Response :=
  {| status := 200; json_result := Some j; blob_result := Some "" |}.

Definition png_response (b : Blob) : Response :=
  {| status := 200; json_result := None; blob_result := Some b |}.

(** The first render after a file was chosen. *)
Definition loaded : AppState := with_file (Some brfss) initial.

Definition by_sex : AppState := with_by "sex" loaded.

Definition prev_rows : list PrevRow :=
  [ {| group := "Male"; prev := 0.125%float |};
    {| group := "Female"; prev := 0.5%float |} ].

Definition or_rows : list ORRow :=
  [ {| term := "Intercept"; OR := 0.25%float; OR_low := 0.125%float;
       OR_high := 0.5%float; P_gt_abs_z := 0.0009765625%float |};
    {| term := "C(sex)[T.Male]"; OR := 1.5%float; OR_low := 1.25%float;
       OR_high := 1.75%float; P_gt_abs_z := 0.03125%float |} ].

(** The prevalence table arrives, the plot request fails at the network. *)
Definition table_only : Env :=
  serving [("http://localhost:8000/prevalence",
            json_response (JArr (map PrevRow_value prev_rows)))].

(** Both prevalence endpoints answer. *)
Definition table_and_plot : Env :=
  serving [("http://localhost:8000/prevalence",
            json_response (JArr (map PrevRow_value prev_rows)));
           ("http://localhost:8000/plot/prevalence", png_response "PNG")].

(** The same server for a later click: the blob gets another URL. *)
Definition table_and_plot_again : Env :=
  {| VITE_API_BASE := None; server := server table_and_plot;
     createObjectURL := fun b => "blob:http://localhost:5173/0b51f7c2-" ++ b |}.

(** The regression endpoint answers with a table. *)
Definition logit_ok : Env :=
  serving [("http://localhost:8000/logit",
            json_response (JObj [("n", JNum 50%float);
                                 ("table", JArr (map ORRow_value or_rows))]))].

(** The user types and clicks again while the prevalence request is
    pending, and clears the file input before the plot request returns. *)
Definition impatient : list Action :=
  [ChooseFiles (Some [brfss]); Click RunPrev table_and_plot; TypeBy "sex";
   Click RunLogit logit_ok; Resume 0; ChooseFiles None].

(** The regression endpoint answers with an error object. *)
Definition logit_detail : Env :=
  serving [("http://localhost:8000/logit",
            json_response (JObj [("detail", JStr "Perfect separation")]))].

(** The regression endpoint answers with the bare sequence of rows. *)
Definition logit_bare : Env :=
  serving [("http://localhost:8000/logit",
            json_response (JArr (map ORRow_value or_rows)))].

(** The regression endpoint answers with the JSON text [null]. *)
Definition logit_null : Env :=
  serving [("http://localhost:8000/logit", json_response JNull)].

(** The regression endpoint answers an error report, status 500. *)
Definition logit_error : Env :=
  serving [("http://localhost:8000/logit",
            {| status := 500;
               json_result := Some (JObj [("detail", JStr "Internal Server Error")]);
               blob_result := Some "" |})].

(** The recode endpoint answers an object whose [length] is an object with
    a [toString] key. *)
Definition recode_odd_length : Env :=
  serving [("http://localhost:8000/recode",
            json_response (JObj [("length", JObj [("toString", JNum 0%float)]);
                                 ("0", JStr "x")]))].

(** The recode endpoint answers an empty sequence. *)
Definition recode_empty : Env :=
  serving [("http://localhost:8000/recode", json_response (JArr []))].

(** The prevalence endpoint answers an error report, the plot endpoint an
    image. *)
Definition prevalence_error : Env :=
  serving [("http://localhost:8000/prevalence",
            {| status := 400;
               json_result := Some (JObj [("detail", JStr "Column not found: sex")]);
               blob_result := Some "" |});
           ("http://localhost:8000/plot/prevalence", png_response "PNG")].

(** The regression endpoint answers with the number zero as its table. *)
Definition logit_zero : Env :=
  serving [("http://localhost:8000/logit",
            json_response (JObj [("table", JNum 0%float)]))].

(** The prevalence endpoint answers the number zero. *)
Definition prevalence_zero : Env :=
  serving [("http://localhost:8000/prevalence", json_response (JNum 0%float))].

Definition second_file : File := {| file_name := "notes.txt"; file_bytes := "n/a" |}.

(** The regression endpoint answers with its table as text. *)
Definition logit_text : Env :=
  serving [("http://localhost:8000/logit",
            json_response (JObj [("table", JStr "term,OR")]))].

(** A state that still shows the table of an earlier regression. *)
Definition showing_or : AppState :=
  with_orRows (VJson (JArr (map ORRow_value or_rows))) loaded.

(** No file, while the busy flag is up. *)
Definition busy_without_file : AppState := with_busy true initial.

(** An example rule table for the derived columns the README lists
    ([diabetes_cat], [t2d_binary], [BMI], [BMI_cat], [age_group], [sex]). *)
Definition rules : list Survey.Rule :=
  [ Survey.MapCodes "DIABETE4" "diabetes_cat"
      [(Survey.Num (Survey.whole 1), Survey.Cat "diabetes");
       (Survey.Num (Survey.whole 3), Survey.Cat "no diabetes");
       (Survey.Num (Survey.whole 4), Survey.Cat "pre-diabetes")]
      (Survey.Cat "missing");
    Survey.MapCodes "DIABETE4" "t2d_binary"
      [(Survey.Num (Survey.whole 1), Survey.Num (Survey.whole 1));
       (Survey.Num (Survey.whole 3), Survey.Num (Survey.whole 0));
       (Survey.Num (Survey.whole 4), Survey.Num (Survey.whole 0))]
      Survey.Missing;
    Survey.Continuous "_BMI5" "BMI";
    Survey.Bins "_BMI5" "BMI_cat"
      [(Survey.whole 0, Survey.whole 1850, "underweight");
       (Survey.whole 1850, Survey.whole 2500, "normal");
       (Survey.whole 2500, Survey.whole 3000, "overweight");
       (Survey.whole 3000, Survey.whole 10000, "obese")]
      "unknown";
    Survey.MapCodes "_AGEG5YR" "age_group"
      [(Survey.Num (Survey.whole 1), Survey.Cat "18-24");
       (Survey.Num (Survey.whole 2), Survey.Cat "25-29")]
      (Survey.Cat "unknown");
    Survey.MapCodes "SEXVAR" "sex"
      [(Survey.Num (Survey.whole 1), Survey.Cat "Male");
       (Survey.Num (Survey.whole 2), Survey.Cat "Female")]
      (Survey.Cat "missing") ].

Definition respondent (diabete4 bmi5 age sex : Z) (w : Z) : gmap string Survey.Value :=
  <["DIABETE4" := Survey.Num (Survey.whole diabete4)]>
  (<["_BMI5" := Survey.Num (Survey.whole bmi5)]>
  (<["_AGEG5YR" := Survey.Num (Survey.whole age)]>
  (<["SEXVAR" := Survey.Num (Survey.whole sex)]>
  (<["_LLCPWT" := Survey.Num (Survey.whole w)]> ∅)))).

Definition raw : list (gmap string Survey.Value) :=
  [respondent 1 2710 1 1 2; respondent 3 2200 2 2 1; respondent 7 9999 14 9 1].

(** A rule that overwrites its own source. *)
Definition overwriting : list Survey.Rule :=
  [ Survey.MapCodes "sex" "sex"
      [(Survey.Num (Survey.whole 1), Survey.Cat "Male");
       (Survey.Num (Survey.whole 2), Survey.Cat "Female")]
      (Survey.Cat "missing") ].

(** The four rows of the end-to-end scenario: outcomes 1, 0, 1, 0 and
    weights 2, 1, 1, 2. *)
Definition answered (o w : Z) : gmap string Survey.Value :=
  <["t2d_binary" := Survey.Num (Survey.whole o)]>
  (<["_LLCPWT" := Survey.Num (Survey.whole w)]> ∅).

Definition four_rows : list (gmap string Survey.Value) :=
  [answered 1 2; answered 0 1; answered 1 1; answered 0 2].

(** A grouped dataset: a row with a missing group, rows with missing
    outcomes, a group seen only with missing outcomes, and a weight that is
    not numeric. *)
Definition interviewed (sex : Survey.Value) (o w : Survey.Value) : gmap string Survey.Value :=
  <["sex" := sex]> (<["t2d_binary" := o]> (<["_LLCPWT" := w]> ∅)).

Definition grouped_rows : list (gmap string Survey.Value) :=
  [ interviewed (Survey.Cat "Male") (Survey.Num (Survey.whole 1)) (Survey.Num (Survey.whole 2));
    interviewed (Survey.Cat "Other") Survey.Missing (Survey.Num (Survey.whole 4));
    interviewed (Survey.Cat "Female") (Survey.Num (Survey.whole 0)) (Survey.Num (Survey.whole 3));
    interviewed Survey.Missing (Survey.Num (Survey.whole 1)) (Survey.Num (Survey.whole 5));
    interviewed (Survey.Cat "Male") (Survey.Num (Survey.whole 0)) (Survey.Num (Survey.whole 2));
    interviewed (Survey.Cat "Female") (Survey.Num (Survey.whole 1)) (Survey.Cat "N/A");
    interviewed (Survey.Cat "Female") Survey.Missing (Survey.Num (Survey.whole 7)) ].

(** The binary64 quotient of numerator and denominator, for proportions. *)
Definition nearest (q : Qc) : number :=
  (PrimFloat.of_uint63 (Uint63.of_Z (Qnum q))
   / PrimFloat.of_uint63 (Uint63.of_Z (Zpos (Qden q))))%float.




Definition separated : Survey.Fit := fun _ _ _ _ => None.

(** Term names in the style of a formula interface. *)
Definition formula_name (t : Survey.Term) : string :=
  match t with
  | Survey.Intercept => "Intercept"
  | Survey.Slope col => col
  | Survey.Indicator col (Survey.Cat l) => "C(" ++ col ++ ")[T." ++ l ++ "]"
  | Survey.Indicator col _ => "C(" ++ col ++ ")"
  end.

(** The rows of the regression of the outcome on sex over [grouped_rows]:
    the intercept and the indicator of the second level seen. *)
Definition sex_rows : list (Survey.Term * Survey.Estimate) :=
  [ (Survey.Intercept,
     {| Survey.odds_ratio := 0.25%float; Survey.ci_low := 0.125%float;
        Survey.ci_high := 0.5%float; Survey.p_value := 0.0009765625%float |});
    (Survey.Indicator "sex" (Survey.Cat "Female"),
     {| Survey.odds_ratio := 1.5%float; Survey.ci_low := 1.25%float;
        Survey.ci_high := 1.75%float; Survey.p_value := 0.03125%float |}) ].



End Scenario.

(** * Properties of the component *)

Module AppFacts.
Import JS App.

Ltac unfold_async :=
  unfold invoke, outcome, final, events, handler, runPrev, runLogit, runRecode,
    try_finally, fetch, json, blob, lift, throw,
    setBusy, setPrevRows, setOrRows, setPlotUrl, alert, effect,
    mbind, Async_bind, mret, Async_ret in *.

Lemma truthy_str_nonempty (s : string) : truthy_str s = true <-> s <> "".
Proof.
  unfold truthy_str. destruct (String.eqb_spec s "") as [-> | Hne]; simpl.
  - split; [discriminate | intros H; now elim H].
  - split; [intros _; exact Hne | reflexivity].
Qed.

Lemma truthy_str_empty (s : string) : truthy_str s = false <-> s = "".
Proof.
  unfold truthy_str. destruct (String.eqb_spec s "") as [-> | Hne]; simpl.
  - split; reflexivity.
  - split; [discriminate | intros H; now elim Hne].
Qed.

(** ToBoolean on the values a [table] field can hold. *)
Example truthy_values :
  truthy (VJson (JNum 0%float)) = false
  /\ truthy (VJson (JNum PrimFloat.neg_zero)) = false
  /\ truthy (VJson (JNum PrimFloat.nan)) = false
  /\ truthy (VJson (JNum 0.5%float)) = true
  /\ truthy (VJson (JStr "")) = false
  /\ truthy (VJson (JBool false)) = false
  /\ truthy (VJson JNull) = false
  /\ truthy VUndefined = false
  /\ truthy (VJson (JArr [])) = true
  /\ truthy (VJson (JObj [])) = true.
Proof. repeat split. Qed.

(** Strings are counted in UTF-16 units, and [s[0]] is the first unit. *)
Example string_units :
  get_length (VJson (JStr "naïve")) = inr (VJson (JNum 5%float))
  /\ get_first (VJson (JStr "éa")) = inr (VJson (JStr "é"))
  /\ get_length (VJson (JStr "😀")) = inr (VJson (JNum 2%float))
  /\ get_first (VJson (JStr "😀"))
     = inr (VJson (JStr (String (Ascii.ascii_of_N 237)
                           (String (Ascii.ascii_of_N 160)
                              (String (Ascii.ascii_of_N 189) EmptyString)))))
  /\ get_first (VJson (JStr "")) = inr VUndefined.
Proof. repeat split. Qed.

(** The form each handler builds by successive [append]s is the listed one. *)
Lemma append_optional (fd : FormData) (k v : string) :
  (if truthy_str v then append fd k (FText v) else fd) = (fd ++ optional_entry k v)%list.
Proof.
  unfold optional_entry, append. destruct (truthy_str v); [reflexivity |].
  now rewrite app_nil_r.
Qed.

Lemma prevalence_form (c : AppState) (f : File) :
  (if truthy_str (weightCol c)
   then append (if truthy_str (by_ c)
                then append (append new_FormData "file" (FFile f)) "by" (FText (by_ c))
                else append new_FormData "file" (FFile f))
               "weight_col" (FText (weightCol c))
   else (if truthy_str (by_ c)
         then append (append new_FormData "file" (FFile f)) "by" (FText (by_ c))
         else append new_FormData "file" (FFile f)))
  = (("file", FFile f) :: optional_entry "by" (by_ c)
     ++ optional_entry "weight_col" (weightCol c))%list.
Proof.
  rewrite !append_optional. unfold append, new_FormData. reflexivity.
Qed.

Lemma logit_form (c : AppState) (f : File) :
  (if truthy_str (weightCol c)
   then append (if truthy_str (covars c)
                then append (append new_FormData "file" (FFile f))
                            "covars_csv" (FText (covars c))
                else append new_FormData "file" (FFile f))
               "weight_col" (FText (weightCol c))
   else (if truthy_str (covars c)
         then append (append new_FormData "file" (FFile f))
                     "covars_csv" (FText (covars c))
         else append new_FormData "file" (FFile f)))
  = (("file", FFile f) :: optional_entry "covars_csv" (covars c)
     ++ optional_entry "weight_col" (weightCol c))%list.
Proof.
  rewrite !append_optional. unfold append, new_FormData. reflexivity.
Qed.

Lemma recode_form (c : AppState) (f : File) :
  (if truthy_str (weightCol c)
   then append (append new_FormData "file" (FFile f))
               "weight_col" (FText (weightCol c))
   else append new_FormData "file" (FFile f))
  = (("file", FFile f) :: optional_entry "weight_col" (weightCol c))%list.
Proof. rewrite append_optional. reflexivity. Qed.

(** *** What one invocation does, path by path *)

Lemma runPrev_run (env : Env) (s : AppState) (f : File) :
  file s = Some f ->
  invoke RunPrev env s =
    let w1 := started s (prevalence_request env s f) in
    match server env (prevalence_request env s f) with
    | None => (inl FetchFailed, finished w1)
    | Some res =>
        match json_result res with
        | None => (inl JsonSyntaxError, finished w1)
        | Some data =>
            let w2 := record (with_prevRows (VJson data))
                        [EvSetPrevRows (VJson data);
                         EvFetch (plot_request env s f)] w1 in
            match server env (plot_request env s f) with
            | None => (inl FetchFailed, finished w2)
            | Some plotRes =>
                match blob_result plotRes with
                | None => (inl BodyReadFailed, finished w2)
                | Some b =>
                    (inr tt,
                     finished (record (with_plotUrl (createObjectURL env b))
                                 [EvSetPlotUrl (createObjectURL env b)] w2))
                end
            end
        end
    end.
Proof.
  intros Hfile. unfold_async. rewrite Hfile. cbn zeta.
  rewrite prevalence_form.
  unfold prevalence_request, plot_request, started, finished, record; simpl.
  destruct (server env _) as [res |]; [| reflexivity].
  destruct (json_result res) as [data |]; [| reflexivity]. simpl.
  destruct (server env _) as [plotRes |]; [| reflexivity].
  destruct (blob_result plotRes) as [b |]; reflexivity.
Qed.

Lemma runLogit_run (env : Env) (s : AppState) (f : File) :
  file s = Some f ->
  invoke RunLogit env s =
    let w1 := started s (logit_request env s f) in
    match server env (logit_request env s f) with
    | None => (inl FetchFailed, finished w1)
    | Some res =>
        match json_result res with
        | None => (inl JsonSyntaxError, finished w1)
        | Some data =>
            match get_field (VJson data) "table" with
            | inl e => (inl e, finished w1)
            | inr table =>
                (inr tt,
                 finished (record (with_orRows (js_or table (VJson JNull)))
                             [EvSetOrRows (js_or table (VJson JNull))] w1))
            end
        end
    end.
Proof.
  intros Hfile. unfold_async. rewrite Hfile. cbn zeta.
  rewrite logit_form.
  unfold logit_request, started, finished, record; simpl.
  destruct (server env _) as [res |]; [| reflexivity].
  destruct (json_result res) as [data |]; [| reflexivity].
  destruct data; reflexivity.
Qed.

Lemma runRecode_run (env : Env) (s : AppState) (f : File) :
  file s = Some f ->
  invoke RunRecode env s =
    let w1 := started s (recode_request env s f) in
    match server env (recode_request env s f) with
    | None => (inl FetchFailed, finished w1)
    | Some res =>
        match json_result res with
        | None => (inl JsonSyntaxError, finished w1)
        | Some data =>
            match get_length (VJson data) with
            | inl e => (inl e, finished w1)
            | inr len =>
                match to_string len with
                | inl e => (inl e, finished w1)
                | inr len_shown =>
                    match get_first (VJson data) with
                    | inl e => (inl e, finished w1)
                    | inr first =>
                        (inr tt,
                         finished (record id
                           [EvAlert [TLit "Recode done. Preview rows: "; len_shown;
                                     TLit (". Showing first 1: " ++ LF);
                                     TStringify first 2]] w1))
                    end
                end
            end
        end
    end.
Proof.
  intros Hfile. unfold_async. rewrite Hfile. cbn zeta.
  rewrite recode_form.
  unfold recode_request, started, finished, record; simpl.
  destruct (server env _) as [res |]; [| reflexivity].
  destruct (json_result res) as [data |]; [| reflexivity].
  destruct data; try reflexivity.
  simpl. destruct (to_string _); reflexivity.
Qed.

(** Case analysis over the paths of one invocation with a file: the goal
    mentions [invoke h env s]; one subgoal is left per path. *)
Ltac each_path Hfile :=
  lazymatch goal with
  | |- context [invoke RunRecode ?env ?s] =>
      rewrite (runRecode_run env s _ Hfile); cbn zeta;
      destruct (server env _) as [? |];
      [destruct (json_result _) as [? |] |];
      [destruct (get_length _); [| destruct (to_string _); [| destruct (get_first _)]]
      | |]
  | |- context [invoke RunPrev ?env ?s] =>
      rewrite (runPrev_run env s _ Hfile); cbn zeta;
      destruct (server env (prevalence_request env s _)) as [? |];
      [destruct (json_result _) as [? |] |];
      [destruct (server env (plot_request env s _)) as [? |];
       [destruct (blob_result _) |] | |]
  | |- context [invoke RunLogit ?env ?s] =>
      rewrite (runLogit_run env s _ Hfile); cbn zeta;
      destruct (server env _) as [? |];
      [destruct (json_result _) as [? |] |];
      [destruct (get_field _ _) | |]
  end.

(** C4. With no file selected, each of the three handlers returns at once:
    it resolves, issues no request, calls no setter and shows no alert (the
    trace is empty), and the state, [prevRows], [orRows], [plotUrl] and
    [busy] included, is the one it started from. *)
Theorem no_file_no_effect (h : Handler) (env : Env) (s : AppState) :
  file s = None ->
  invoke h env s = (inr tt, {| react := s; trace := [] |}).
Proof.
  intros Hfile. destruct h; unfold invoke, handler, runRecode, runPrev, runLogit;
    rewrite Hfile; reflexivity.
Qed.

(** The first render, before any file is chosen. *)
Lemma no_file_no_effect_witness :
  invoke RunPrev Scenario.table_and_plot initial
  = (inr tt, {| react := initial; trace := [] |}).
Proof. apply (no_file_no_effect RunPrev Scenario.table_and_plot initial). reflexivity. Defined.

(** The requests one invocation issues: the handler's own request, and
    for [runPrev] the plot request. *)
Lemma issued_requests (h : Handler) (env : Env) (s : AppState) (req : Request) :
  In req (requests (events h env s)) ->
  exists f, file s = Some f /\
    (req = first_request h env s f \/ (h = RunPrev /\ req = plot_request env s f)).
Proof.
  unfold events. destruct (file s) as [f |] eqn:Hfile.
  - intros Hin. exists f. split; [reflexivity |]. revert Hin.
    destruct h; simpl first_request; each_path Hfile; simpl; intuition.
  - destruct h; unfold invoke, handler, runRecode, runPrev, runLogit;
      rewrite Hfile; simpl; intros [].
Qed.

(** A request of the trace carries the weight column of the click when
    that column is a non-empty string. *)
Lemma weight_col_sent (h : Handler) (env : Env) (s : AppState) (req : Request) :
  In req (requests (events h env s)) ->
  weightCol s <> "" ->
  form_get "weight_col" (body req) = Some (FText (weightCol s)).
Proof.
  intros Hin Hw.
  destruct (issued_requests h env s req Hin) as (f & Hfile & Hreq).
  apply truthy_str_nonempty in Hw.
  destruct Hreq as [-> | [-> ->]]; [destruct h |];
    unfold first_request, recode_request, prevalence_request, logit_request,
      plot_request, optional_entry, body;
    rewrite Hw;
    try destruct (truthy_str (by_ s)); try destruct (truthy_str (covars s));
    reflexivity.
Qed.

(** With a file selected, a handler issues its own request on every path. *)
Lemma first_request_issued (h : Handler) (env : Env) (s : AppState) (f : File) :
  file s = Some f -> In (first_request h env s f) (requests (events h env s)).
Proof.
  intros Hfile. unfold events.
  destruct h; simpl first_request; each_path Hfile; simpl; auto.
Qed.

(** [runPrev] issues the plot request once the table has arrived. *)
Lemma plot_request_issued (env : Env) (s : AppState) (f : File) (res : Response)
    (data : JSON) :
  file s = Some f ->
  server env (prevalence_request env s f) = Some res ->
  json_result res = Some data ->
  In (plot_request env s f) (requests (events RunPrev env s)).
Proof.
  intros Hfile Hres Hdata. unfold events.
  rewrite (runPrev_run env s f Hfile). cbn zeta. rewrite Hres, Hdata.
  destruct (server env (plot_request env s f)) as [plotRes |];
    [destruct (blob_result plotRes) |]; simpl; auto.
Qed.

(** C5. The weight-column cell starts as the string [_LLCPWT], and every
    request a handler issues (recode, prevalence, plot, regression) carries
    the weight column current at the click under the key [weight_col]
    whenever that column is a non-empty string. Requests are issued: with a
    file selected each handler issues its own request, and [runPrev] issues
    the plot request once the table has arrived. In particular, from the
    first render with a file chosen every request carries
    [weight_col = _LLCPWT]. *)
Theorem weight_col_default_and_sent :
  weightCol initial = "_LLCPWT"
  /\ (forall h env s req,
        In req (requests (events h env s)) ->
        weightCol s <> "" ->
        form_get "weight_col" (body req) = Some (FText (weightCol s)))
  /\ (forall h env s f,
        file s = Some f -> In (first_request h env s f) (requests (events h env s)))
  /\ (forall env s f res data,
        file s = Some f ->
        server env (prevalence_request env s f) = Some res ->
        json_result res = Some data ->
        In (plot_request env s f) (requests (events RunPrev env s)))
  /\ (forall h env f req,
        In req (requests (events h env (with_file (Some f) initial))) ->
        form_get "weight_col" (body req) = Some (FText "_LLCPWT")).
Proof.
  split; [reflexivity |].
  split; [exact weight_col_sent |].
  split; [exact first_request_issued |].
  split; [exact plot_request_issued |].
  intros h env f req Hin.
  apply (weight_col_sent h env (with_file (Some f) initial) req Hin).
  discriminate.
Qed.

(** C6 (as the code has it). Every request carries the chosen file under
    [file]. The weight column is carried under [weight_col] exactly when
    it is a non-empty string. The grouping column is carried under [by]
    exactly when the request is one of [runPrev] (prevalence or plot) and
    the column is a non-empty string; the covariate list is carried under
    [covars_csv] exactly when the request is the one of [runLogit] and the
    list is a non-empty string. An entry that is carried holds the value
    current at the click. *)
Theorem optional_entries_by_endpoint (h : Handler) (env : Env) (s : AppState)
    (req : Request) :
  In req (requests (events h env s)) ->
  (exists f, file s = Some f /\ form_get "file" (body req) = Some (FFile f))
  /\ (included "weight_col" req <-> weightCol s <> "")
  /\ (included "by" req <-> h = RunPrev /\ by_ s <> "")
  /\ (included "covars_csv" req <-> h = RunLogit /\ covars s <> "")
  /\ (forall v, form_get "weight_col" (body req) = Some v -> v = FText (weightCol s))
  /\ (forall v, form_get "by" (body req) = Some v -> v = FText (by_ s))
  /\ (forall v, form_get "covars_csv" (body req) = Some v -> v = FText (covars s)).
Proof.
  intros Hin.
  destruct (issued_requests h env s req Hin) as (f & Hfile & Hreq).
  split; [exists f; split; [exact Hfile |] |].
  - destruct Hreq as [-> | [-> ->]]; [destruct h |]; reflexivity.
  - destruct Hreq as [-> | [-> ->]]; [destruct h |];
      unfold included, first_request, recode_request, prevalence_request,
        logit_request, plot_request, optional_entry, body;
      destruct (truthy_str (weightCol s)) eqn:Ew;
      try destruct (truthy_str (by_ s)) eqn:Eb;
      try destruct (truthy_str (covars s)) eqn:Ec;
      repeat match goal with
             | E : truthy_str _ = true |- _ => apply truthy_str_nonempty in E
             | E : truthy_str _ = false |- _ => apply truthy_str_empty in E
             end;
      simpl; intuition (congruence || discriminate).
Qed.

(** The regression request of a render with a file and [by = sex]. *)
Lemma optional_entries_by_endpoint_witness :
  (exists f, file Scenario.by_sex = Some f
             /\ form_get "file" (body (logit_request Scenario.offline Scenario.by_sex
                                        Scenario.brfss)) = Some (FFile f))
  /\ (included "weight_col" (logit_request Scenario.offline Scenario.by_sex Scenario.brfss)
      <-> weightCol Scenario.by_sex <> "")
  /\ (included "by" (logit_request Scenario.offline Scenario.by_sex Scenario.brfss)
      <-> RunLogit = RunPrev /\ by_ Scenario.by_sex <> "")
  /\ (included "covars_csv" (logit_request Scenario.offline Scenario.by_sex Scenario.brfss)
      <-> RunLogit = RunLogit /\ covars Scenario.by_sex <> "")
  /\ (forall v, form_get "weight_col"
                  (body (logit_request Scenario.offline Scenario.by_sex Scenario.brfss))
                = Some v -> v = FText (weightCol Scenario.by_sex))
  /\ (forall v, form_get "by"
                  (body (logit_request Scenario.offline Scenario.by_sex Scenario.brfss))
                = Some v -> v = FText (by_ Scenario.by_sex))
  /\ (forall v, form_get "covars_csv"
                  (body (logit_request Scenario.offline Scenario.by_sex Scenario.brfss))
                = Some v -> v = FText (covars Scenario.by_sex)).
Proof.
  apply (optional_entries_by_endpoint RunLogit Scenario.offline Scenario.by_sex).
  simpl. left. reflexivity.
Defined.

(** C6, the claim as stated, fails: the regression request built while the
    grouping column is the non-empty string [sex] carries no [by] entry. *)
Lemma logit_request_omits_nonempty_by :
  In (logit_request Scenario.offline Scenario.by_sex Scenario.brfss)
     (requests (events RunLogit Scenario.offline Scenario.by_sex))
  /\ by_ Scenario.by_sex = "sex"
  /\ ~ (included "by" (logit_request Scenario.offline Scenario.by_sex Scenario.brfss)
        <-> by_ Scenario.by_sex <> "").
Proof.
  split; [simpl; left; reflexivity |]. split; [reflexivity |].
  intros [_ H]. apply H; [discriminate | reflexivity].
Qed.

(** C7. In a run of [runPrev] whose table request succeeds with body
    [data], a plot step that fails (the request rejects, or reading its body
    does) leaves the table in place: [setPrevRows(data)] comes before the
    plot request in the trace, the handler rejects, and in the state it
    leaves [prevRows] is [data], [plotUrl] is untouched and [busy] is
    down. *)
Theorem plot_failure_keeps_table (env : Env) (s : AppState) (f : File)
    (res : Response) (data : JSON) :
  file s = Some f ->
  server env (prevalence_request env s f) = Some res ->
  json_result res = Some data ->
  (server env (plot_request env s f) = None
   \/ exists plotRes, server env (plot_request env s f) = Some plotRes
                      /\ blob_result plotRes = None) ->
  events RunPrev env s
    = [EvSetBusy true; EvFetch (prevalence_request env s f);
       EvSetPrevRows (VJson data); EvFetch (plot_request env s f);
       EvSetBusy false]
  /\ (exists e, outcome RunPrev env s = inl e)
  /\ prevRows (final RunPrev env s) = VJson data
  /\ plotUrl (final RunPrev env s) = plotUrl s
  /\ busy (final RunPrev env s) = false.
Proof.
  intros Hfile Hres Hdata Hplot. unfold events, outcome, final.
  rewrite (runPrev_run env s f Hfile). cbn zeta. rewrite Hres, Hdata.
  destruct Hplot as [-> | (plotRes & -> & ->)]; simpl; eauto 6.
Qed.

(** The table arrives and the plot request fails at the network. *)
Lemma plot_failure_keeps_table_witness :
  events RunPrev Scenario.table_only Scenario.by_sex
    = [EvSetBusy true;
       EvFetch (prevalence_request Scenario.table_only Scenario.by_sex Scenario.brfss);
       EvSetPrevRows (VJson (JArr (map PrevRow_value Scenario.prev_rows)));
       EvFetch (plot_request Scenario.table_only Scenario.by_sex Scenario.brfss);
       EvSetBusy false]
  /\ (exists e, outcome RunPrev Scenario.table_only Scenario.by_sex = inl e)
  /\ prevRows (final RunPrev Scenario.table_only Scenario.by_sex)
     = VJson (JArr (map PrevRow_value Scenario.prev_rows))
  /\ plotUrl (final RunPrev Scenario.table_only Scenario.by_sex)
     = plotUrl Scenario.by_sex
  /\ busy (final RunPrev Scenario.table_only Scenario.by_sex) = false.
Proof.
  apply (plot_failure_keeps_table Scenario.table_only Scenario.by_sex Scenario.brfss
           (Scenario.json_response (JArr (map PrevRow_value Scenario.prev_rows)))).
  - reflexivity.
  - reflexivity.
  - reflexivity.
  - left. reflexivity.
Defined.

(** A handler invoked with a file selected raises [busy] first and lowers
    it last, on every path: whatever the server answers and whether the
    handler resolves or rejects, its trace starts with [setBusy(true)] and
    ends with [setBusy(false)], and [busy] is false in the state it
    leaves. *)
Lemma busy_restored_with_file (h : Handler) (env : Env) (s : AppState) (f : File) :
  file s = Some f ->
  busy (final h env s) = false
  /\ exists mid, events h env s = (EvSetBusy true :: mid ++ [EvSetBusy false])%list.
Proof.
  intros Hfile. unfold final, events.
  destruct h; each_path Hfile; (split; [reflexivity | eexists; reflexivity]).
Qed.

(** The guard [if (!file) return] sits before [setBusy(true)] and outside
    the [try]: a handler called with no file, which no button does, leaves
    [busy] as it finds it. *)
Example guard_exit_leaves_busy :
  file Scenario.busy_without_file = None
  /\ outcome RunPrev Scenario.table_and_plot Scenario.busy_without_file = inr tt
  /\ events RunPrev Scenario.table_and_plot Scenario.busy_without_file = []
  /\ busy (final RunPrev Scenario.table_and_plot Scenario.busy_without_file) = true.
Proof. repeat split. Qed.

(** C10 (as the code has it). When the body of the regression response
    decodes to a JSON value other than [null] whose [table] field is absent
    or falsy, [runLogit] resolves and sets [orRows] to [null], whatever
    table was shown before. *)
Theorem regression_without_table (env : Env) (s : AppState) (f : File)
    (res : Response) (data : JSON) :
  file s = Some f ->
  server env (logit_request env s f) = Some res ->
  json_result res = Some data ->
  data <> JNull ->
  (forall t, get_field (VJson data) "table" = inr t -> truthy t = false) ->
  outcome RunLogit env s = inr tt
  /\ orRows (final RunLogit env s) = VJson JNull
  /\ events RunLogit env s
     = [EvSetBusy true; EvFetch (logit_request env s f);
        EvSetOrRows (VJson JNull); EvSetBusy false].
Proof.
  intros Hfile Hres Hdata Hnull Hfalsy. unfold outcome, final, events.
  rewrite (runLogit_run env s f Hfile). cbn zeta. rewrite Hres, Hdata.
  destruct (get_field (VJson data) "table") as [e | t] eqn:Hget.
  - destruct data; simpl in Hget; try discriminate. now elim Hnull.
  - unfold js_or. rewrite (Hfalsy t eq_refl). repeat split.
Qed.

(** An error object replaces the table of an earlier regression by [null]. *)
Lemma regression_without_table_witness :
  outcome RunLogit Scenario.logit_detail Scenario.showing_or = inr tt
  /\ orRows (final RunLogit Scenario.logit_detail Scenario.showing_or) = VJson JNull
  /\ events RunLogit Scenario.logit_detail Scenario.showing_or
     = [EvSetBusy true;
        EvFetch (logit_request Scenario.logit_detail Scenario.showing_or Scenario.brfss);
        EvSetOrRows (VJson JNull); EvSetBusy false].
Proof.
  apply (regression_without_table Scenario.logit_detail Scenario.showing_or Scenario.brfss
           (Scenario.json_response (JObj [("detail", JStr "Perfect separation")]))
           (JObj [("detail", JStr "Perfect separation")])).
  - reflexivity.
  - reflexivity.
  - reflexivity.
  - discriminate.
  - intros t Ht. simpl in Ht. injection Ht as <-. reflexivity.
Defined.

(** C10, the claim as stated, fails when the body is the JSON text [null]:
    it has no [table] field, the read [data.table] throws a TypeError, the
    handler rejects and [orRows] keeps the table shown before. *)
Lemma null_body_rejects_and_keeps_table :
  server Scenario.logit_null
    (logit_request Scenario.logit_null Scenario.showing_or Scenario.brfss)
    = Some (Scenario.json_response JNull)
  /\ outcome RunLogit Scenario.logit_null Scenario.showing_or = inl TypeError
  /\ orRows (final RunLogit Scenario.logit_null Scenario.showing_or)
     = VJson (JArr (map ORRow_value Scenario.or_rows))
  /\ orRows (final RunLogit Scenario.logit_null Scenario.showing_or) <> VJson JNull.
Proof. repeat split. discriminate. Qed.


Lemma prev_tr_typed (r : PrevRow) : prev_tr (VJson (PrevRow_value r)) = inr (PrevRow_cells r).
Proof. reflexivity. Qed.

Lemma map_exn_total {A B : Type} (f : A -> Exn + B) (g : A -> B) (l : list A) :
  (forall x, In x l -> f x = inr (g x)) -> map_exn f l = inr (map g l).
Proof.
  induction l as [| x l IH]; intros Hf; simpl; [reflexivity |].
  rewrite (Hf x (or_introl eq_refl)). simpl.
  rewrite IH; [reflexivity |]. intros y Hy. apply Hf. now right.
Qed.


Lemma prev_rows_typed (rows : list PrevRow) :
  map_exn (fun j => prev_tr (VJson j)) (map PrevRow_value rows)
  = inr (map PrevRow_cells rows).
Proof.
  induction rows as [| r rows IH]; [reflexivity |].
  cbn [map map_exn]. rewrite prev_tr_typed, IH. reflexivity.
Qed.



Lemma prev_section_typed (rows : list PrevRow) :
  prev_section (VJson (JArr (map PrevRow_value rows)))
  = inr (RTable (map PrevRow_cells rows)).
Proof.
  unfold prev_section, array_map. cbn [truthy].
  rewrite prev_rows_typed. reflexivity.
Qed.

(** A row the odds-ratio table can show is an object with numbers under
    [OR], [OR_low], [OR_high] and [P>|z|]; its cells are built from these
    and from [term], and from nothing else. *)
Lemma or_tr_fields (v : JSValue) (cells : TableRow) :
  or_tr v = inr cells ->
  exists props o lo hi p,
    v = VJson (JObj props)
    /\ own_property "OR" props = VJson (JNum o)
    /\ own_property "OR_low" props = VJson (JNum lo)
    /\ own_property "OR_high" props = VJson (JNum hi)
    /\ own_property "P>|z|" props = VJson (JNum p)
    /\ cells = [[TChild (own_property "term" props)]; [TFixed o 2];
                [TFixed lo 2; TLit "–"; TFixed hi 2]; [TExponential p 2]].
Proof.
  unfold or_tr. destruct v as [| [| | | | | props]]; simpl; try discriminate.
  destruct (own_property "OR" props) as [| [| | o | | |]] eqn:Ho;
    simpl; try discriminate.
  destruct (own_property "OR_low" props) as [| [| | lo | | |]] eqn:Hlo;
    simpl; try discriminate.
  destruct (own_property "OR_high" props) as [| [| | hi | | |]] eqn:Hhi;
    simpl; try discriminate.
  destruct (own_property "P>|z|" props) as [| [| | p | | |]] eqn:Hp;
    simpl; try discriminate.
  intros [= <-]. exists props, o, lo, hi, p. repeat split; assumption.
Qed.

(** A row the prevalence table can show is an object whose [group]
    converts to a string, with a number under [prev]; its cells are built
    from [group] and [prev]. *)
Lemma prev_tr_fields (v : JSValue) (cells : TableRow) :
  prev_tr v = inr cells ->
  exists props q,
    v = VJson (JObj props)
    /\ converts (own_property "group" props) = true
    /\ own_property "prev" props = VJson (JNum q)
    /\ cells = [[TToString (own_property "group" props)]; [TFixed q 3]].
Proof.
  unfold prev_tr, to_string.
  destruct v as [| [| | | | | props]]; simpl; try discriminate.
  destruct (converts (own_property "group" props)) eqn:Hg; simpl; try discriminate.
  destruct (own_property "prev" props) as [| [| | q | | |]] eqn:Hq;
    simpl; try discriminate.
  intros [= <-]. exists props, q. repeat split; assumption.
Qed.

(** A response that is the bare sequence, with no enclosing object, has no
    [table] field: the client then holds [null] and shows no table. *)
Example bare_sequence_shows_nothing :
  outcome RunLogit Scenario.logit_bare Scenario.showing_or = inr tt
  /\ orRows (final RunLogit Scenario.logit_bare Scenario.showing_or) = VJson JNull
  /\ or_section (orRows (final RunLogit Scenario.logit_bare Scenario.showing_or))
     = inr (RFalsy (VJson JNull)).
Proof. repeat split. Qed.




(** No handler touches the chosen file. *)
Lemma file_unchanged (h : Handler) (env : Env) (s : AppState) :
  file (final h env s) = file s.
Proof.
  unfold final. destruct (file s) as [f |] eqn:Hfile.
  - destruct h; each_path Hfile; simpl; exact Hfile.
  - destruct h; unfold invoke, handler, runRecode, runPrev, runLogit;
      rewrite Hfile; simpl; exact Hfile.
Qed.

(** The buttons are disabled without a file and while [busy] is up, so a
    click that reaches a handler starts with a file and with [busy] down;
    after it the buttons are enabled again. *)
Lemma enabled_click_leaves_enabled (h : Handler) (env : Env) (s : AppState) :
  disabled s = false ->
  busy s = false /\ busy (final h env s) = false /\ disabled (final h env s) = false.
Proof.
  unfold disabled, canRun. intros Hen.
  destruct (file s) as [f |] eqn:Hfile; [| discriminate]. simpl in Hen.
  assert (Hafter : busy (final h env s) = false).
  { unfold final. destruct h; each_path Hfile; reflexivity. }
  split; [exact Hen |]. split; [exact Hafter |].
  rewrite file_unchanged, Hfile, Hafter. reflexivity.
Qed.

Lemma session_cons (a : Action) (actions : list Action) (l : Live) :
  session (a :: actions) l = session actions (step l a).
Proof. reflexivity. Qed.

(** A trace is its first turn followed by what is left for later. *)
Lemma until_fetch_app (evs : list Event) :
  evs = (fst (until_fetch evs) ++ snd (until_fetch evs))%list.
Proof.
  induction evs as [| ev evs IH]; [reflexivity |].
  destruct ev; simpl; try reflexivity;
    destruct (until_fetch evs) as [now later]; simpl in *; now rewrite <- IH.
Qed.

Lemma until_fetch_Forall (P : Event -> Prop) (evs : list Event) :
  Forall P evs ->
  Forall P (fst (until_fetch evs)) /\ Forall P (snd (until_fetch evs)).
Proof.
  intros H. apply Forall_app. now rewrite <- until_fetch_app.
Qed.

Lemma closing_nonempty (evs : list Event) : closing evs -> evs <> [].
Proof. intros (mid & -> & _). now destruct mid. Qed.

(** One turn of a run in flight either ends the run, and lowers [busy],
    or stops at a request with [busy] as it was. *)
Lemma closing_advance (evs : list Event) (s : AppState) :
  closing evs ->
  (snd (advance s evs) = [] /\ busy (fst (advance s evs)) = false)
  \/ (closing (snd (advance s evs)) /\ busy (fst (advance s evs)) = busy s).
Proof.
  intros (mid & -> & Hmid). revert s.
  induction Hmid as [| ev mid Hev Hmid IH]; intros s.
  - left. split; reflexivity.
  - unfold advance in *. destruct ev; try (now elim (Hev b)).
    + right. split; [now exists mid | reflexivity].
    + specialize (IH (with_prevRows v s)). simpl.
      destruct (until_fetch (mid ++ [EvSetBusy false])) as [now later]. exact IH.
    + specialize (IH (with_orRows v s)). simpl.
      destruct (until_fetch (mid ++ [EvSetBusy false])) as [now later]. exact IH.
    + specialize (IH (with_plotUrl u s)). simpl.
      destruct (until_fetch (mid ++ [EvSetBusy false])) as [now later]. exact IH.
    + specialize (IH s). simpl.
      destruct (until_fetch (mid ++ [EvSetBusy false])) as [now later]. exact IH.
Qed.

Ltac quiet_mid := repeat (constructor; [intros ?; discriminate |]); constructor.

Ltac close_flight :=
  first [ exists []; split; [reflexivity | quiet_mid]
        | eexists [_]; split; [reflexivity | quiet_mid]
        | eexists [_; _]; split; [reflexivity | quiet_mid]
        | eexists [_; _; _]; split; [reflexivity | quiet_mid] ].

(** Every run with a file raises [busy], issues its first request, and
    what follows leaves [busy] alone until the [finally] block lowers it. *)
Lemma events_shape (h : Handler) (env : Env) (s : AppState) (f : File) :
  file s = Some f ->
  exists rest,
    events h env s = EvSetBusy true :: EvFetch (first_request h env s f) :: rest
    /\ closing rest.
Proof.
  intros Hfile. unfold events.
  destruct h; each_path Hfile; simpl; eexists; (split; [reflexivity |]); close_flight.
Qed.

(** The invariant of a session: [one_run] holds after every action. *)
Lemma step_one_run (l : Live) (a : Action) : one_run l -> one_run (step l a).
Proof.
  intros Hl. destruct a as [files | v | v | v | h env | i]; try exact Hl.
  - (* a click *)
    simpl. destruct (disabled (shown l)) eqn:Hd; [exact Hl |].
    unfold disabled, canRun in Hd.
    destruct (file (shown l)) as [f |] eqn:Hfile; [| discriminate]. simpl in Hd.
    destruct Hl as [[Hnone _] | (evs & _ & _ & Hup)]; [| congruence].
    destruct (events_shape h env (shown l) f Hfile) as (rest & -> & Hrest).
    unfold advance. simpl. rewrite Hnone.
    destruct rest as [| ev rest]; [now elim (closing_nonempty [] Hrest) |].
    right. exists (ev :: rest).
    split; [reflexivity |]. split; [exact Hrest | reflexivity].
  - (* a run goes on *)
    simpl. destruct (in_flight l !! i) as [evs |] eqn:Hi; [| exact Hl].
    destruct Hl as [[Hnone _] | (evs0 & Hone & Hclosing & Hup)].
    { rewrite Hnone in Hi. discriminate. }
    rewrite Hone in Hi. destruct i as [| i]; [| discriminate].
    injection Hi as <-. rewrite Hone.
    destruct (closing_advance evs0 (shown l) Hclosing) as [[Hend Hdown] | [Hgo Hsame]];
      destruct (advance (shown l) evs0) as [s' later]; simpl in *.
    + subst later. left. split; [reflexivity | exact Hdown].
    + destruct later as [| ev later]; [now elim (closing_nonempty [] Hgo) |].
      right. exists (ev :: later).
      split; [reflexivity |]. split; [exact Hgo |]. simpl. congruence.
Qed.

Lemma session_one_run (actions : list Action) (l : Live) :
  one_run l -> one_run (session actions l).
Proof.
  revert l. induction actions as [| a actions IH]; intros l Hl; [exact Hl |].
  rewrite session_cons. apply IH, step_one_run, Hl.
Qed.

Lemma one_run_busy (l : Live) :
  one_run l ->
  length (in_flight l) <= 1
  /\ (busy (shown l) = true <-> in_flight l <> [])
  /\ (busy (shown l) = false <-> in_flight l = []).
Proof.
  intros [[Hnone Hdown] | (evs & Hone & _ & Hup)].
  - rewrite Hnone, Hdown. simpl. repeat split; try lia; try congruence; try discriminate.
  - rewrite Hone, Hup. simpl. repeat split; try lia; try congruence; try discriminate.
Qed.

(** A run that nothing interrupts is the run seen alone: an enabled click
    followed by the turns of its run leaves the component at rest in the
    state [final] gives. No handler has more than two requests. *)
Lemma uninterrupted_run (h : Handler) (env : Env) (s : AppState) :
  disabled s = false ->
  session [Click h env; Resume 0; Resume 0] (at_rest s) = at_rest (final h env s).
Proof.
  intros Hd. unfold session. cbn [fold_left step at_rest shown in_flight].
  rewrite Hd. unfold disabled, canRun in Hd.
  destruct (file s) as [f |] eqn:Hfile; [| discriminate].
  unfold advance, events, final.
  destruct h; each_path Hfile; reflexivity.
Qed.

(** C9. Every handler restores the busy flag on every exit path. The
    buttons are disabled without a file and while [busy] is up, so a click
    that fires finds a file chosen and [busy] down. Its run, whatever the
    server answers and whether it resolves or rejects, calls
    [setBusy(true)] first, [setBusy(false)] last and [setBusy] nowhere in
    between, and left alone it ends with [busy] down. In a session,
    whatever the user does while the run is pending, [busy] is down
    exactly when no run is in flight: up until the run has ended, down
    once it has. *)
Theorem click_restores_busy (h : Handler) (env : Env) (s : AppState)
    (actions : list Action) :
  disabled s = false ->
  (exists f mid,
      file s = Some f /\ busy s = false
      /\ events h env s = (EvSetBusy true :: mid ++ [EvSetBusy false])%list
      /\ Forall quiet mid)
  /\ busy (final h env s) = false
  /\ session [Click h env; Resume 0; Resume 0] (at_rest s) = at_rest (final h env s)
  /\ (busy (shown (session (Click h env :: actions) (at_rest s))) = false
      <-> in_flight (session (Click h env :: actions) (at_rest s)) = []).
Proof.
  intros Hd.
  destruct (enabled_click_leaves_enabled h env s Hd) as (Hdown & Hafter & _).
  split.
  - unfold disabled, canRun in Hd.
    destruct (file s) as [f |] eqn:Hfile; [| discriminate].
    destruct (events_shape h env s f Hfile) as (rest & Hev & mid & -> & Hmid).
    exists f, (EvFetch (first_request h env s f) :: mid).
    split; [reflexivity |]. split; [exact Hdown |]. split; [exact Hev |].
    constructor; [intros b; discriminate | exact Hmid].
  - split; [exact Hafter |]. split; [exact (uninterrupted_run h env s Hd) |].
    apply one_run_busy, session_one_run. left. split; [reflexivity | exact Hdown].
Qed.

(** A regression that rejects on a [null] body, while the user types. *)
Lemma click_restores_busy_witness :
  (exists f mid,
      file Scenario.loaded = Some f /\ busy Scenario.loaded = false
      /\ events RunLogit Scenario.logit_null Scenario.loaded
         = (EvSetBusy true :: mid ++ [EvSetBusy false])%list
      /\ Forall quiet mid)
  /\ busy (final RunLogit Scenario.logit_null Scenario.loaded) = false
  /\ session [Click RunLogit Scenario.logit_null; Resume 0; Resume 0]
       (at_rest Scenario.loaded)
     = at_rest (final RunLogit Scenario.logit_null Scenario.loaded)
  /\ (busy (shown (session (Click RunLogit Scenario.logit_null
                              :: [TypeCovars "sex"; Resume 0])
                     (at_rest Scenario.loaded))) = false
      <-> in_flight (session (Click RunLogit Scenario.logit_null
                                :: [TypeCovars "sex"; Resume 0])
                       (at_rest Scenario.loaded)) = []).
Proof.
  apply (click_restores_busy RunLogit Scenario.logit_null Scenario.loaded
           [TypeCovars "sex"; Resume 0]).
  reflexivity.
Defined.

End AppFacts.

(** * Properties of the survey pipeline *)

Module SurveyFacts.
Import Survey.

(** ** Recoder *)

Lemma recode_row_cons (ρ : Rule) (rules : list Rule) (r : Row) :
  recode_row (ρ :: rules) r = recode_row rules (apply_rule r ρ).
Proof. reflexivity. Qed.

(** A column no rule derives is preserved. *)
Lemma recode_row_other (rules : list Rule) (r : Row) (c : string) :
  c ∉ rule_dst <$> rules -> recode_row rules r !! c = r !! c.
Proof.
  revert r. induction rules as [| ρ rules IH]; intros r Hc; [reflexivity |].
  rewrite fmap_cons in Hc. apply not_elem_of_cons in Hc as [Hne Hc].
  rewrite recode_row_cons, IH by exact Hc.
  unfold apply_rule. apply lookup_insert_ne. congruence.
Qed.

(** One rule keeps two rows in agreement on a column, as seen through [g],
    when they agree on the rule's source and either the rule derives that
    column or they agreed on it already. *)
Lemma apply_rule_agree {A : Type} (g : option Value -> A) (ρ : Rule) (m m' : Row)
    (c : string) :
  cell m (rule_src ρ) = cell m' (rule_src ρ) ->
  c = rule_dst ρ \/ g (m !! c) = g (m' !! c) ->
  g (apply_rule m ρ !! c) = g (apply_rule m' ρ !! c).
Proof.
  intros Hsrc Hc. unfold apply_rule. rewrite !lookup_insert, Hsrc.
  destruct (decide (rule_dst ρ = c)) as [E | N]; [reflexivity |].
  destruct Hc as [-> | Hc]; [now elim N | exact Hc].
Qed.

(** The derived columns depend on the source cells only: rows that agree on
    every source agree, once recoded, on every derived column, and on every
    other column they agreed on. *)
Lemma recode_row_agree {A : Type} (g : option Value -> A) (rules : list Rule)
    (m m' : Row) (c : string) :
  (forall ρ, ρ ∈ rules -> cell m (rule_src ρ) = cell m' (rule_src ρ)) ->
  c ∈ rule_dst <$> rules \/ g (m !! c) = g (m' !! c) ->
  g (recode_row rules m !! c) = g (recode_row rules m' !! c).
Proof.
  revert m m'. induction rules as [| ρ rules IH]; intros m m' Hsrc Hc.
  - destruct Hc as [Hc | Hc]; [| exact Hc]. rewrite fmap_nil in Hc.
    now apply elem_of_nil in Hc.
  - rewrite !recode_row_cons.
    assert (Hρ : cell m (rule_src ρ) = cell m' (rule_src ρ)).
    { apply Hsrc. apply elem_of_cons. now left. }
    apply IH.
    + intros ρ' Hρ'. unfold cell. apply (apply_rule_agree (default Missing)).
      * exact Hρ.
      * right. apply Hsrc. apply elem_of_cons. now right.
    + rewrite fmap_cons in Hc. destruct Hc as [Hc | Hc].
      * apply elem_of_cons in Hc as [-> | Hc]; [| now left].
        right. apply apply_rule_agree; [exact Hρ | now left].
      * right. apply apply_rule_agree; [exact Hρ | now right].
Qed.

(** Recoding a recoded row changes nothing when the source columns are
    intact. *)
Lemma recode_row_idempotent (rules : list Rule) (r : Row) :
  sources_intact rules r ->
  recode_row rules (recode_row rules r) = recode_row rules r.
Proof.
  intros Hintact. apply map_eq. intros c.
  apply (recode_row_agree id).
  - intros ρ Hρ. unfold sources_intact in Hintact.
    rewrite Forall_forall in Hintact. apply Hintact. exact Hρ.
  - destruct (decide (c ∈ rule_dst <$> rules)) as [Hin | Hout]; [now left |].
    right. simpl. apply recode_row_other. exact Hout.
Qed.

(** A table none of whose derived columns is a source column leaves the
    sources of every row intact. *)
Lemma disjoint_sources_intact (rules : list Rule) (r : Row) :
  Forall (fun ρ => rule_src ρ ∉ rule_dst <$> rules) rules ->
  sources_intact rules r.
Proof.
  unfold sources_intact. intros H. eapply Forall_impl; [exact H |].
  intros ρ Hρ. simpl in Hρ. unfold cell. now rewrite recode_row_other.
Qed.

(** C8. Recoding is idempotent: for every rule table and every dataset
    whose source columns are intact (recoding leaves each source cell of
    each row as it was), recoding the recoded dataset gives the recoded
    dataset again, so every derived value is the one of the first
    recode. *)
Theorem recode_idempotent (rules : list Rule) (ds : Dataset) :
  Forall (sources_intact rules) ds ->
  recode rules (recode rules ds) = recode rules ds.
Proof.
  unfold recode. induction 1 as [| r ds Hr _ IH]; [reflexivity |].
  rewrite !fmap_cons. f_equal; [| exact IH].
  apply recode_row_idempotent. exact Hr.
Qed.

(** The example table on three raw rows; no derived column is a source. *)
Lemma recode_idempotent_witness :
  recode Scenario.rules (recode Scenario.rules Scenario.raw)
  = recode Scenario.rules Scenario.raw.
Proof.
  apply (recode_idempotent Scenario.rules Scenario.raw).
  repeat constructor; apply disjoint_sources_intact;
    apply (bool_decide_unpack _); vm_compute; exact I.
Defined.

(** The example table at work: known codes map to their categories, codes
    outside the mappings to the sentinels, and the raw columns stay. *)
Example recode_known_codes :
  let r := recode_row Scenario.rules (Scenario.respondent 1 2710 1 1 2) in
  cell r "diabetes_cat" = Cat "diabetes"
  /\ cell r "t2d_binary" = Num (whole 1)
  /\ cell r "BMI_cat" = Cat "overweight"
  /\ cell r "age_group" = Cat "18-24"
  /\ cell r "sex" = Cat "Male"
  /\ cell r "DIABETE4" = Num (whole 1).
Proof. vm_compute. repeat split. Qed.

Example recode_unknown_codes :
  let r := recode_row Scenario.rules (Scenario.respondent 7 10000 14 9 1) in
  cell r "diabetes_cat" = Cat "missing"
  /\ cell r "t2d_binary" = Missing
  /\ cell r "BMI_cat" = Cat "unknown"
  /\ cell r "age_group" = Cat "unknown"
  /\ cell r "sex" = Cat "missing".
Proof. vm_compute. repeat split. Qed.

(** Without intact sources the property is lost: a rule that overwrites
    its own source maps the raw code at the first recode and its own output,
    which is outside the mapping, at the second. *)
Example overwritten_source_not_idempotent :
  let r : Row := {[ "sex" := Num (whole 1) ]} in
  cell (recode_row Scenario.overwriting r) "sex" = Cat "Male"
  /\ cell (recode_row Scenario.overwriting (recode_row Scenario.overwriting r)) "sex"
     = Cat "missing".
Proof. vm_compute. repeat split. Qed.

(** ** Weighted aggregator *)

Section Aggregator.
Variables (ocol : string) (by_col : option string) (wcol : string).

Lemma sumQc_cons (q : Qc) (l : list Qc) : sumQc (q :: l) = (q + sumQc l)%Qc.
Proof. reflexivity. Qed.

Lemma counts_for_true (g : Value) (r : Row) :
  counts_for ocol by_col g r = true <->
  group_of by_col r = Some g /\ is_Some (outcome_of ocol r).
Proof.
  unfold counts_for. rewrite andb_true_iff, !bool_decide_eq_true. reflexivity.
Qed.

(** The two sums of the formula, row by row. *)
Lemma weighted_outcomes_cons (g : Value) (r : Row) (ds : Dataset) :
  weighted_outcomes ocol by_col wcol g (r :: ds)
  = ((if decide (group_of by_col r = Some g)
      then fst (contribution ocol wcol r) else 0)
     + weighted_outcomes ocol by_col wcol g ds)%Qc.
Proof.
  unfold weighted_outcomes. rewrite filter_cons.
  destruct (decide (counts_for ocol by_col g r = true)) as [Hc | Hc].
  - apply counts_for_true in Hc as [Hg [o Ho]].
    rewrite fmap_cons, sumQc_cons, decide_True by exact Hg.
    unfold contribution. rewrite Ho. reflexivity.
  - destruct (decide (group_of by_col r = Some g)) as [Hg | Hg].
    + unfold contribution. destruct (outcome_of ocol r) as [o |] eqn:Ho.
      * elim Hc. apply counts_for_true. split; [exact Hg | now exists o].
      * simpl. ring.
    + ring.
Qed.

Lemma weights_cons (g : Value) (r : Row) (ds : Dataset) :
  weights ocol by_col wcol g (r :: ds)
  = ((if decide (group_of by_col r = Some g)
      then snd (contribution ocol wcol r) else 0)
     + weights ocol by_col wcol g ds)%Qc.
Proof.
  unfold weights. rewrite filter_cons.
  destruct (decide (counts_for ocol by_col g r = true)) as [Hc | Hc].
  - apply counts_for_true in Hc as [Hg [o Ho]].
    rewrite fmap_cons, sumQc_cons, decide_True by exact Hg.
    unfold contribution. rewrite Ho. reflexivity.
  - destruct (decide (group_of by_col r = Some g)) as [Hg | Hg].
    + unfold contribution. destruct (outcome_of ocol r) as [o |] eqn:Ho.
      * elim Hc. apply counts_for_true. split; [exact Hg | now exists o].
      * simpl. ring.
    + ring.
Qed.

(** What [bump] does to the sums of each group. *)
Lemma sums_of_bump (g g' : Value) (c : Sums) (table : list (Value * Sums)) :
  sums_of g' (bump g c table)
  = if decide (g' = g)
    then Some (match sums_of g table with
               | Some (n, d) => ((n + fst c)%Qc, (d + snd c)%Qc)
               | None => c
               end)
    else sums_of g' table.
Proof.
  induction table as [| [k [n d]] table IH]; simpl.
  - destruct (decide (g' = g)); reflexivity.
  - destruct (decide (g = k)) as [-> | Hgk]; simpl.
    + destruct (decide (g' = k)); reflexivity.
    + rewrite IH. destruct (decide (g' = k)) as [-> | Hk].
      * rewrite decide_False by congruence. reflexivity.
      * reflexivity.
Qed.

Lemma bump_keys (g k : Value) (c : Sums) (table : list (Value * Sums)) :
  k ∈ (bump g c table).*1 <-> k = g \/ k ∈ table.*1.
Proof.
  induction table as [| [k' [n d]] table IH]; simpl.
  - rewrite list_elem_of_singleton, elem_of_nil. tauto.
  - destruct (decide (g = k')) as [-> | Hne]; simpl.
    + rewrite !elem_of_cons. tauto.
    + rewrite !elem_of_cons, IH. tauto.
Qed.

Lemma bump_NoDup (g : Value) (c : Sums) (table : list (Value * Sums)) :
  NoDup table.*1 -> NoDup (bump g c table).*1.
Proof.
  induction table as [| [k' [n d]] table IH]; simpl; intros Hnd.
  - apply NoDup_singleton.
  - apply NoDup_cons in Hnd as [Hk' Hnd].
    destruct (decide (g = k')) as [-> | Hne]; simpl.
    + apply NoDup_cons. split; assumption.
    + apply NoDup_cons. split; [| now apply IH].
      rewrite bump_keys. intros [-> | Hin]; [now elim Hne | now elim Hk'].
Qed.

Lemma tally_NoDup (ds : Dataset) (table : list (Value * Sums)) :
  NoDup table.*1 -> NoDup (foldl (tally ocol by_col wcol) table ds).*1.
Proof.
  revert table. induction ds as [| r ds IH]; intros table Hnd; [exact Hnd |].
  simpl. apply IH. unfold tally.
  destruct (group_of by_col r); [now apply bump_NoDup | exact Hnd].
Qed.

Lemma sums_of_key (g : Value) (sums : Sums) (table : list (Value * Sums)) :
  sums_of g table = Some sums -> g ∈ table.*1.
Proof.
  induction table as [| [k s'] table IH]; simpl; [discriminate |].
  destruct (decide (g = k)) as [-> | Hne]; intros H; apply elem_of_cons;
    [now left | right; now apply IH].
Qed.

(** With distinct keys, the entry of a group is its lookup. *)
Lemma sums_of_elem (g : Value) (sums : Sums) (table : list (Value * Sums)) :
  NoDup table.*1 -> (g, sums) ∈ table <-> sums_of g table = Some sums.
Proof.
  induction table as [| [k s'] table IH]; simpl; intros Hnd.
  - rewrite elem_of_nil. split; [tauto | discriminate].
  - apply NoDup_cons in Hnd as [Hk Hnd]. rewrite elem_of_cons, (IH Hnd).
    destruct (decide (g = k)) as [-> | Hne].
    + split.
      * intros [[= ->] | Hin]; [reflexivity |].
        elim Hk. now apply (sums_of_key k sums table).
      * intros [= ->]. now left.
    + split; [intros [[= -> _] | H]; [now elim Hne | exact H] | now right].
Qed.

Lemma observed_cons (g : Value) (r : Row) (ds : Dataset) :
  observed by_col g (r :: ds) <-> group_of by_col r = Some g \/ observed by_col g ds.
Proof. unfold observed. apply Exists_cons. Qed.

(** The table after the pass: each group holds what it held before plus
    the two sums of the formula, and a group not in the table before is in
    it after exactly when it is observed. *)
Lemma tally_sums (ds : Dataset) (table : list (Value * Sums)) (g : Value) :
  sums_of g (foldl (tally ocol by_col wcol) table ds)
  = match sums_of g table with
    | Some (n, d) =>
        Some ((n + weighted_outcomes ocol by_col wcol g ds)%Qc,
              (d + weights ocol by_col wcol g ds)%Qc)
    | None =>
        if decide (observed by_col g ds)
        then Some (weighted_outcomes ocol by_col wcol g ds,
                   weights ocol by_col wcol g ds)
        else None
    end.
Proof.
  revert table. induction ds as [| r ds IH]; intros table.
  - cbn [foldl]. destruct (sums_of g table) as [[n d] |].
    + unfold weighted_outcomes, weights. simpl. f_equal. f_equal; ring.
    + rewrite decide_False; [reflexivity |]. unfold observed. now rewrite Exists_nil.
  - cbn [foldl]. rewrite IH, weighted_outcomes_cons, weights_cons. unfold tally.
    destruct (group_of by_col r) as [k |] eqn:Hk.
    + rewrite sums_of_bump.
      destruct (decide (g = k)) as [-> | Hne].
      * rewrite !(decide_True (P := Some k = Some k)) by reflexivity.
        destruct (sums_of k table) as [[n d] |].
        -- f_equal. f_equal; ring.
        -- rewrite decide_True by (apply observed_cons; now left).
           destruct (contribution ocol wcol r) as [cn cd]. reflexivity.
      * rewrite !(decide_False (P := Some k = Some g)) by congruence.
        destruct (sums_of g table) as [[n d] |].
        -- f_equal. f_equal; ring.
        -- destruct (decide (observed by_col g ds)) as [Ho | Ho].
           ++ rewrite decide_True by (apply observed_cons; now right).
              f_equal. f_equal; ring.
           ++ rewrite decide_False; [reflexivity |].
              rewrite observed_cons. intros [E | E]; [congruence | now elim Ho].
    + rewrite !(decide_False (P := None = Some g)) by discriminate.
      destruct (sums_of g table) as [[n d] |].
      * f_equal. f_equal; ring.
      * destruct (decide (observed by_col g ds)) as [Ho | Ho].
        -- rewrite decide_True by (apply observed_cons; now right).
           f_equal. f_equal; ring.
        -- rewrite decide_False; [reflexivity |].
           rewrite observed_cons. intros [E | E]; [congruence | now elim Ho].
Qed.

(** The groups of the result are those of the table, each at most once. *)
Lemma prevalence_rows_keys (table : list (Value * Sums)) (g : Value) :
  g ∈ (omap prevalence_row table).*1 -> g ∈ table.*1.
Proof.
  induction table as [| [k [n d]] table IH]; simpl; [tauto |].
  destruct (decide (d = 0%Qc)); simpl.
  - intros H. apply elem_of_cons. right. now apply IH.
  - rewrite !elem_of_cons. intros [-> | H]; [now left | right; now apply IH].
Qed.

Lemma prevalence_rows_NoDup (table : list (Value * Sums)) :
  NoDup table.*1 -> NoDup (omap prevalence_row table).*1.
Proof.
  induction table as [| [k [n d]] table IH]; simpl; intros Hnd; [exact Hnd |].
  apply NoDup_cons in Hnd as [Hk Hnd].
  destruct (decide (d = 0%Qc)); simpl; [now apply IH |].
  apply NoDup_cons. split; [| now apply IH].
  intros Hin. apply Hk. now apply prevalence_rows_keys.
Qed.

(** The aggregator against the formula: group [g] has a row with
    proportion [p] exactly when [g] is observed, its weights do not sum to
    zero, and [p] is the quotient of the two sums. *)
Lemma prevalence_spec (ds : Dataset) (g : Value) (p : Qc) :
  (g, p) ∈ prevalence ocol by_col wcol ds <->
  observed by_col g ds
  /\ weights ocol by_col wcol g ds <> 0%Qc
  /\ p = (weighted_outcomes ocol by_col wcol g ds / weights ocol by_col wcol g ds)%Qc.
Proof.
  unfold prevalence. rewrite list_elem_of_omap.
  pose proof (tally_NoDup ds [] (NoDup_nil_2 : NoDup ([] : list (Value * Sums)).*1))
    as Hnd.
  pose proof (tally_sums ds [] g) as Hsums. simpl sums_of in Hsums.
  split.
  - intros ([k [n d]] & Hin & Hrow). unfold prevalence_row in Hrow.
    destruct (decide (d = 0%Qc)) as [Hd | Hd]; [discriminate |].
    injection Hrow as -> <-.
    apply (sums_of_elem _ _ _ Hnd) in Hin. rewrite Hin in Hsums.
    destruct (decide (observed by_col g ds)) as [Ho | Ho]; [| discriminate].
    injection Hsums as -> ->. repeat split; assumption.
  - intros (Ho & Hd & ->). rewrite decide_True in Hsums by exact Ho.
    exists (g, (weighted_outcomes ocol by_col wcol g ds,
                weights ocol by_col wcol g ds)).
    split; [now apply (sums_of_elem _ _ _ Hnd) |].
    unfold prevalence_row. now rewrite decide_False by exact Hd.
Qed.

Lemma prevalence_NoDup (ds : Dataset) :
  NoDup (prevalence ocol by_col wcol ds).*1.
Proof.
  unfold prevalence. apply prevalence_rows_NoDup, tally_NoDup.
  simpl. apply NoDup_nil_2.
Qed.

End Aggregator.

(** An ungrouped pass keeps one entry, under the synthetic label. *)
Lemma tally_overall (ocol wcol : string) (ds : Dataset) (n d : Qc) :
  foldl (tally ocol None wcol) [(overall, (n, d))] ds
  = [(overall, ((n + weighted_outcomes ocol None wcol overall ds)%Qc,
                (d + weights ocol None wcol overall ds)%Qc))].
Proof.
  revert n d. induction ds as [| r ds IH]; intros n d.
  - unfold weighted_outcomes, weights. simpl.
    do 2 f_equal. f_equal; ring.
  - cbn [foldl].
    change (tally ocol None wcol [(overall, (n, d))] r)
      with (bump overall (contribution ocol wcol r) [(overall, (n, d))]).
    cbn [bump]. rewrite decide_True by reflexivity. rewrite IH.
    rewrite weighted_outcomes_cons, weights_cons. cbn [group_of].
    rewrite !decide_True by reflexivity.
    do 2 f_equal. f_equal; ring.
Qed.

(** Ungrouped, the result is the single row of the formula over all rows
    with an outcome, and no row when their weights sum to zero. *)
Lemma ungrouped_prevalence (ocol wcol : string) (ds : Dataset) :
  prevalence ocol None wcol ds
  = if decide (weights ocol None wcol overall ds = 0%Qc) then []
    else [(overall, (weighted_outcomes ocol None wcol overall ds
                     / weights ocol None wcol overall ds)%Qc)].
Proof.
  unfold prevalence. destruct ds as [| r ds].
  - reflexivity.
  - cbn [foldl].
    change (tally ocol None wcol [] r) with [(overall, contribution ocol wcol r)].
    rewrite weighted_outcomes_cons, weights_cons. cbn [group_of].
    rewrite !(decide_True (P := Some overall = Some overall)) by reflexivity.
    destruct (contribution ocol wcol r) as [cn cd].
    rewrite tally_overall. cbn [fst snd]. unfold omap, list_omap, prevalence_row.
    destruct (decide _); reflexivity.
Qed.

Ltac rows_equal :=
  vm_compute;
  repeat match goal with
         | |- (_ :: _) = (_ :: _) => apply (f_equal2 cons)
         | |- (_, _) = (_, _) => apply (f_equal2 pair)
         | |- @eq Qc _ _ => apply Qc_is_canon; reflexivity
         | |- _ => reflexivity
         end.

(** A grouped run: groups in first-seen order, the row with a missing
    group and the rows with a missing outcome left out of both sums, the
    group seen only with missing outcomes omitted, and the weight that is
    not numeric counted as 1. Male: 2 / (2 + 2); Female: 1 / (3 + 1). *)
Example grouped_prevalence :
  prevalence "t2d_binary" (Some "sex") "_LLCPWT" Scenario.grouped_rows
  = [(Cat "Male", Q2Qc (1 # 2)); (Cat "Female", Q2Qc (1 # 4))].
Proof. rows_equal. Qed.

(** C1. For every dataset, outcome column, optional grouping column and
    weight column, and for each group level [g]: the aggregator reports a
    prevalence [p] for [g] exactly when [g] is observed with weights that
    do not sum to zero, and then [p] is the sum of weight times outcome
    divided by the sum of weights, both over the rows whose outcome is
    not missing and whose group is [g]; each group is reported once.
    Ungrouped, the sums run over all rows with an outcome. On the four
    rows with outcomes 1, 0, 1, 0 and weights 2, 1, 1, 2 the ungrouped
    prevalence is 3/6 = 1/2. *)
Theorem weighted_prevalence_formula :
  (forall ocol by_col wcol (ds : Dataset) g p,
      (g, p) ∈ prevalence ocol by_col wcol ds <->
      observed by_col g ds
      /\ weights ocol by_col wcol g ds <> 0%Qc
      /\ p = (weighted_outcomes ocol by_col wcol g ds
              / weights ocol by_col wcol g ds)%Qc)
  /\ (forall ocol by_col wcol (ds : Dataset),
        NoDup (prevalence ocol by_col wcol ds).*1)
  /\ (forall ocol wcol (ds : Dataset),
        weights ocol None wcol overall ds <> 0%Qc ->
        prevalence ocol None wcol ds
        = [(overall, (weighted_outcomes ocol None wcol overall ds
                      / weights ocol None wcol overall ds)%Qc)])
  /\ weighted_outcomes "t2d_binary" None "_LLCPWT" overall Scenario.four_rows = whole 3
  /\ weights "t2d_binary" None "_LLCPWT" overall Scenario.four_rows = whole 6
  /\ prevalence "t2d_binary" None "_LLCPWT" Scenario.four_rows
     = [(overall, Q2Qc (1 # 2))].
Proof.
  split; [intros; apply prevalence_spec |].
  split; [intros; apply prevalence_NoDup |].
  split; [intros ocol wcol ds Hd; rewrite ungrouped_prevalence;
          now rewrite decide_False by exact Hd |].
  assert (HN : weighted_outcomes "t2d_binary" None "_LLCPWT" overall Scenario.four_rows
               = whole 3) by (apply Qc_is_canon; vm_compute; reflexivity).
  assert (HD : weights "t2d_binary" None "_LLCPWT" overall Scenario.four_rows
               = whole 6) by (apply Qc_is_canon; vm_compute; reflexivity).
  split; [exact HN |]. split; [exact HD |].
  rewrite ungrouped_prevalence, HN, HD.
  rewrite decide_False by discriminate.
  do 2 f_equal. apply Qc_is_canon. reflexivity.
Qed.

End SurveyFacts.

(** * The results of the pipeline as the component shows them *)

Module WireFacts.
Import JS App Survey Wire AppFacts SurveyFacts.

Lemma label_converts (enc : Qc -> number) (g : Value) :
  converts (VJson (label enc g)) = true.
Proof. now destruct g. Qed.


















(** What the page shows in that scenario: Male 2/4 and Female 1/4. *)
Example prevalence_by_sex_view :
  prev_cells Scenario.nearest
    <$> prevalence "t2d_binary" (Some "sex") "_LLCPWT" Scenario.grouped_rows
  = [ [[TToString (VJson (JStr "Male"))]; [TFixed 0.5%float 3]];
      [[TToString (VJson (JStr "Female"))]; [TFixed 0.25%float 3]] ].
Proof. vm_compute. reflexivity. Qed.




(** What the page shows in that scenario. *)
Example regression_by_sex_view :
  (fun r => ORRow_cells (or_row Scenario.formula_name r)) <$> Scenario.sex_rows
  = [ [[TChild (VJson (JStr "Intercept"))]; [TFixed 0.25%float 2];
       [TFixed 0.125%float 2; TLit "–"; TFixed 0.5%float 2];
       [TExponential 0.0009765625%float 2]];
      [[TChild (VJson (JStr "C(sex)[T.Female]"))]; [TFixed 1.5%float 2];
       [TFixed 1.25%float 2; TLit "–"; TFixed 1.75%float 2];
       [TExponential 0.03125%float 2]] ].
Proof. reflexivity. Qed.

(** A fit that reports a failure gives no rows. *)
Example failed_fit_has_no_rows :
  regression Scenario.separated "t2d_binary" [Categorical "sex"] "_LLCPWT"
    Scenario.grouped_rows = None.
Proof. reflexivity. Qed.


End WireFacts.

(** * Further properties of the component *)

Module AppExtra.
Import JS App AppFacts.

(** The paths of an invocation without a file. *)
Lemma invoke_without_file (h : Handler) (env : Env) (s : AppState) :
  file s = None -> invoke h env s = (inr tt, {| react := s; trace := [] |}).
Proof.
  intros Hfile. destruct h; unfold invoke, handler, runRecode, runPrev, runLogit;
    rewrite Hfile; reflexivity.
Qed.

(** X2. No handler touches the inputs: the file, the grouping column, the
    covariate list and the weight column are after the run what they were
    before. Each handler writes its own result cells only: [prevRows] and
    [plotUrl] change under [runPrev] alone, [orRows] under [runLogit]
    alone, and [runRecode] changes none of the three. *)
Theorem handlers_write_own_cells (h : Handler) (env : Env) (s : AppState) :
  file (final h env s) = file s
  /\ by_ (final h env s) = by_ s
  /\ covars (final h env s) = covars s
  /\ weightCol (final h env s) = weightCol s
  /\ (h <> RunPrev ->
      prevRows (final h env s) = prevRows s /\ plotUrl (final h env s) = plotUrl s)
  /\ (h <> RunLogit -> orRows (final h env s) = orRows s).
Proof.
  unfold final. destruct (file s) as [f |] eqn:Hfile.
  - destruct h; each_path Hfile; simpl; repeat split; try assumption; congruence.
  - rewrite (invoke_without_file h env s Hfile). simpl. repeat split; assumption.
Qed.

(** X3. An alert is shown exactly when [runRecode], invoked with a file,
    resolves; no other handler alerts, and no run alerts twice. *)
Theorem alert_iff_recode_resolves (h : Handler) (env : Env) (s : AppState) :
  (alerts (events h env s) <> []
   <-> h = RunRecode /\ file s <> None /\ outcome h env s = inr tt)
  /\ length (alerts (events h env s)) <= 1.
Proof.
  unfold events, outcome. destruct (file s) as [f |] eqn:Hfile.
  - destruct h; each_path Hfile; simpl;
      (split; [split; [intros H; try (now elim H); repeat split; congruence
                      | intros (H1 & H2 & H3); congruence]
              | lia]).
  - rewrite (invoke_without_file h env s Hfile). simpl.
    split; [| lia]. split; [intros H; now elim H | intros (_ & H & _); now elim H].
Qed.

(** X4. When a run with a file resolves. [runLogit] resolves exactly when
    the request is answered and the body decodes to a JSON value other
    than [null]. [runRecode] asks one thing more, that [data.length]
    converts to a string for the alert: it always does, unless it is an
    object with an own [toString] key or an array that holds one.
    [runPrev] resolves exactly when the table request is answered with any
    JSON body and the plot request is answered with a readable body. The
    status of a response plays no part: an error report in JSON counts as
    an answer. *)
Theorem handler_resolves_iff (h : Handler) (env : Env) (s : AppState) (f : File) :
  file s = Some f ->
  (outcome h env s = inr tt <->
   exists res data,
     server env (first_request h env s f) = Some res
     /\ json_result res = Some data
     /\ match h with
        | RunRecode =>
            exists len, get_length (VJson data) = inr len /\ converts len = true
        | RunLogit => data <> JNull
        | RunPrev =>
            exists plotRes b,
              server env (plot_request env s f) = Some plotRes
              /\ blob_result plotRes = Some b
        end).
Proof.
  intros Hfile. unfold outcome. destruct h; simpl first_request.
  - rewrite (runRecode_run env s f Hfile). cbn zeta.
    destruct (server env _) as [res |] eqn:Hres;
      [destruct (json_result res) as [data |] eqn:Hdata |].
    + destruct (get_length (VJson data)) as [e | len] eqn:Hlen.
      * split; [discriminate |].
        intros (r & d & [= <-] & Hd & len & Hl & _).
        rewrite Hdata in Hd. injection Hd as <-. congruence.
      * unfold to_string. destruct (converts len) eqn:Hconv.
        -- destruct (get_first (VJson data)) as [e | first] eqn:Hfirst.
           ++ destruct data; discriminate.
           ++ split; [intros _; exists res, data; eauto 6 | reflexivity].
        -- split; [discriminate |].
           intros (r & d & [= <-] & Hd & len' & Hl & Hc).
           rewrite Hdata in Hd. injection Hd as <-. congruence.
    + split; [discriminate | intros (r & d & [= <-] & Hd & _); congruence].
    + split; [discriminate | intros (r & d & Hr & _); discriminate].
  - rewrite (runPrev_run env s f Hfile). cbn zeta.
    destruct (server env (prevalence_request env s f)) as [res |] eqn:Hres;
      [destruct (json_result res) as [data |] eqn:Hdata;
       [destruct (server env (plot_request env s f)) as [plotRes |] eqn:Hplot;
        [destruct (blob_result plotRes) as [b |] eqn:Hblob |] |] |];
      simpl;
      (split;
       [intros H; first [discriminate H | eexists _, _; repeat split; eauto]
       | intros (r & d & H1 & H2 & pr & b' & H3 & H4);
         first [reflexivity | congruence]]).
  - rewrite (runLogit_run env s f Hfile). cbn zeta.
    destruct (server env _) as [res |] eqn:Hres;
      [destruct (json_result res) as [data |] eqn:Hdata; [destruct data |] |];
      simpl;
      (split;
       [intros H; first [discriminate H
                        | eexists _, _; repeat split; eauto; discriminate]
       | intros (r & d & H1 & H2 & H3); first [reflexivity | congruence]]).
Qed.

(** A body whose [length] does not convert: the recode run rejects. *)
Lemma handler_resolves_iff_witness :
  outcome RunRecode Scenario.recode_odd_length Scenario.loaded = inr tt <->
  exists res data,
    server Scenario.recode_odd_length
      (first_request RunRecode Scenario.recode_odd_length Scenario.loaded Scenario.brfss)
      = Some res
    /\ json_result res = Some data
    /\ exists len, get_length (VJson data) = inr len /\ converts len = true.
Proof.
  apply (handler_resolves_iff RunRecode Scenario.recode_odd_length Scenario.loaded
           Scenario.brfss).
  reflexivity.
Defined.

(** On that body the handler rejects with a TypeError and shows no alert;
    an error report with status 500 resolves the regression run. *)
Example odd_length_rejects :
  outcome RunRecode Scenario.recode_odd_length Scenario.loaded = inl TypeError
  /\ alerts (events RunRecode Scenario.recode_odd_length Scenario.loaded) = []
  /\ outcome RunLogit Scenario.logit_error Scenario.loaded = inr tt.
Proof. repeat split. Qed.

(** X5. When [runRecode] gets a sequence, it resolves and its one alert
    reports the length of the sequence and stringifies its first element,
    [undefined] when the sequence is empty; the rows themselves go
    nowhere: the state is the one before the click, [busy] lowered. *)
Theorem recode_alert_on_array (env : Env) (s : AppState) (f : File)
    (res : Response) (elems : list JSON) :
  file s = Some f ->
  server env (recode_request env s f) = Some res ->
  json_result res = Some (JArr elems) ->
  outcome RunRecode env s = inr tt
  /\ alerts (events RunRecode env s)
     = [[TLit "Recode done. Preview rows: ";
         TToString (VJson (JNum (number_of_nat (length elems))));
         TLit (". Showing first 1: " ++ LF);
         TStringify (match elems with x :: _ => VJson x | [] => VUndefined end) 2]]
  /\ final RunRecode env s = with_busy false s.
Proof.
  intros Hfile Hres Hdata. unfold outcome, events, final.
  rewrite (runRecode_run env s f Hfile). cbn zeta. rewrite Hres, Hdata.
  simpl. repeat split.
Qed.

(** An empty preview. *)
Lemma recode_alert_on_array_witness :
  outcome RunRecode Scenario.recode_empty Scenario.loaded = inr tt
  /\ alerts (events RunRecode Scenario.recode_empty Scenario.loaded)
     = [[TLit "Recode done. Preview rows: ";
         TToString (VJson (JNum (number_of_nat (length (@nil JSON)))));
         TLit (". Showing first 1: " ++ LF);
         TStringify VUndefined 2]]
  /\ final RunRecode Scenario.recode_empty Scenario.loaded
     = with_busy false Scenario.loaded.
Proof.
  apply (recode_alert_on_array Scenario.recode_empty Scenario.loaded Scenario.brfss
           (Scenario.json_response (JArr []))).
  - reflexivity.
  - reflexivity.
  - reflexivity.
Defined.

(** X6. A run that rejects leaves the odds-ratio table and the plot as
    they were and lowers [busy]; the prevalence table is as it was too,
    unless the run is a [runPrev] that had already stored a new table when
    its plot step failed. *)
Theorem rejected_run_keeps_results (h : Handler) (env : Env) (s : AppState) (e : Exn) :
  outcome h env s = inl e ->
  orRows (final h env s) = orRows s
  /\ plotUrl (final h env s) = plotUrl s
  /\ busy (final h env s) = false
  /\ (prevRows (final h env s) = prevRows s
      \/ (h = RunPrev
          /\ In (EvSetPrevRows (prevRows (final h env s))) (events h env s)
          /\ (e = FetchFailed \/ e = BodyReadFailed))).
Proof.
  unfold outcome, final, events. destruct (file s) as [f |] eqn:Hfile.
  - destruct h; each_path Hfile; simpl; intros [= <-] || intros [=];
      repeat split; auto 10.
  - rewrite (invoke_without_file h env s Hfile). discriminate.
Qed.

(** The regression body is [null]: the earlier regression table stays. *)
Lemma rejected_run_keeps_results_witness :
  orRows (final RunLogit Scenario.logit_null Scenario.showing_or)
  = orRows Scenario.showing_or
  /\ plotUrl (final RunLogit Scenario.logit_null Scenario.showing_or)
     = plotUrl Scenario.showing_or
  /\ busy (final RunLogit Scenario.logit_null Scenario.showing_or) = false
  /\ (prevRows (final RunLogit Scenario.logit_null Scenario.showing_or)
      = prevRows Scenario.showing_or
      \/ (RunLogit = RunPrev
          /\ In (EvSetPrevRows
                   (prevRows (final RunLogit Scenario.logit_null Scenario.showing_or)))
                (events RunLogit Scenario.logit_null Scenario.showing_or)
          /\ (TypeError = FetchFailed \/ TypeError = BodyReadFailed))).
Proof.
  apply (rejected_run_keeps_results RunLogit Scenario.logit_null Scenario.showing_or
           TypeError).
  reflexivity.
Defined.

(** X7. [runPrev] issues nothing without a file, and otherwise the table
    request alone or the table request followed by the plot request, never
    more. The plot request is there exactly when a table was stored, and it
    carries the same form entries as the table request. *)
Theorem plot_follows_table (env : Env) (s : AppState) :
  match requests (events RunPrev env s) with
  | [] => file s = None
  | [r1] =>
      url r1 = API_BASE env ++ "/prevalence"
      /\ (forall v, ~ In (EvSetPrevRows v) (events RunPrev env s))
  | [r1; r2] =>
      url r1 = API_BASE env ++ "/prevalence"
      /\ url r2 = API_BASE env ++ "/plot/prevalence"
      /\ body r2 = body r1
      /\ In (EvSetPrevRows (prevRows (final RunPrev env s))) (events RunPrev env s)
  | _ => False
  end.
Proof.
  unfold events, final. destruct (file s) as [f |] eqn:Hfile.
  - each_path Hfile; simpl; repeat split; auto;
      intros v [H | [H | [H | H]]]; (discriminate H || exact H).
  - rewrite (invoke_without_file RunPrev env s Hfile). reflexivity.
Qed.

Lemma API_BASE_nonempty (env : Env) : API_BASE env <> "".
Proof.
  unfold API_BASE. destruct (VITE_API_BASE env) as [b |]; [| discriminate].
  destruct (truthy_str b) eqn:Hb; [| discriminate].
  now apply truthy_str_nonempty.
Qed.

(** X8. Every request the client issues is a POST to one of the endpoints
    the backend README lists, under a base address that is never empty
    (the build variable, or [http://localhost:8000] when it is unset or
    empty), and its form holds only fields listed for that endpoint, the
    file first, no key twice. The health endpoint is never called. *)
Theorem requests_are_documented (h : Handler) (env : Env) (s : AppState)
    (req : Request) :
  In req (requests (events h env s)) ->
  API_BASE env <> ""
  /\ method req = "POST"
  /\ exists path fields,
       In ("POST", path, fields) endpoints
       /\ url req = API_BASE env ++ path
       /\ (forall k v, In (k, v) (body req) -> In k fields)
       /\ NoDup (map fst (body req))
       /\ exists f rest, file s = Some f /\ body req = ("file", FFile f) :: rest.
Proof.
  intros Hin. destruct (issued_requests h env s req Hin) as (f & Hfile & Hreq).
  split; [apply API_BASE_nonempty |].
  assert (Hshape :
    exists path k v fields,
      In ("POST", path, fields) endpoints
      /\ req = {| url := API_BASE env ++ path; method := "POST";
                  body := (("file", FFile f) :: optional_entry k v
                           ++ optional_entry "weight_col" (weightCol s))%list |}
      /\ k <> "file" /\ k <> "weight_col"
      /\ In "file" fields /\ In "weight_col" fields
      /\ (truthy_str v = true -> In k fields)).
  { destruct Hreq as [-> | [-> ->]]; [destruct h |].
    - exists "/recode", "by", "", ["file"; "weight_col"].
      repeat split; try discriminate; simpl; auto.
    - exists "/prevalence", "by", (by_ s), ["file"; "by"; "weight_col"].
      repeat split; try discriminate; simpl; auto.
    - exists "/logit", "covars_csv", (covars s), ["file"; "covars_csv"; "weight_col"].
      repeat split; try discriminate; simpl; auto 6.
    - exists "/plot/prevalence", "by", (by_ s), ["file"; "by"; "weight_col"].
      repeat split; try discriminate; simpl; auto 6. }
  destruct Hshape as (path & k & v & fields & Hdoc & -> & Hk1 & Hk2 & Hf & Hw & Hkf).
  split; [reflexivity |]. exists path, fields.
  split; [exact Hdoc |]. split; [reflexivity |].
  unfold optional_entry; simpl body.
  destruct (truthy_str v) eqn:Hv, (truthy_str (weightCol s)) eqn:Hwc; simpl;
    (split; [intros k' v' Hk'; simpl in Hk';
             repeat (destruct Hk' as [Hk' | Hk']; [injection Hk' as <- <-; auto |]);
             elim Hk' |]);
    (split; [repeat constructor;
             (let H := fresh in
              intros H;
              repeat (apply elem_of_cons in H as [H | H]; [congruence |]);
              now apply elem_of_nil in H) |]);
    eauto.
Qed.

(** The plot request of a grouped run. *)
Lemma requests_are_documented_witness :
  API_BASE Scenario.table_and_plot <> ""
  /\ method (plot_request Scenario.table_and_plot Scenario.by_sex Scenario.brfss) = "POST"
  /\ exists path fields,
       In ("POST", path, fields) endpoints
       /\ url (plot_request Scenario.table_and_plot Scenario.by_sex Scenario.brfss)
          = API_BASE Scenario.table_and_plot ++ path
       /\ (forall k v,
             In (k, v)
                (body (plot_request Scenario.table_and_plot Scenario.by_sex Scenario.brfss))
             -> In k fields)
       /\ NoDup (map fst
                   (body (plot_request Scenario.table_and_plot Scenario.by_sex
                            Scenario.brfss)))
       /\ exists f rest,
            file Scenario.by_sex = Some f
            /\ body (plot_request Scenario.table_and_plot Scenario.by_sex Scenario.brfss)
               = ("file", FFile f) :: rest.
Proof.
  apply (requests_are_documented RunPrev Scenario.table_and_plot Scenario.by_sex).
  simpl. right. left. reflexivity.
Defined.

(** [map_exn] succeeds exactly when the callback succeeds on every
    element, and then gives the results in order. *)
Lemma map_exn_inr {A B : Type} (f : A -> Exn + B) (l : list A) (ys : list B) :
  map_exn f l = inr ys <-> Forall2 (fun x y => f x = inr y) l ys.
Proof.
  revert ys. induction l as [| x l IH]; intros ys; simpl.
  - split; [intros [= <-]; constructor | intros H; inversion H; reflexivity].
  - destruct (f x) as [e | y] eqn:Hx; simpl.
    + split; [discriminate | intros H; inversion H; congruence].
    + destruct (map_exn f l) as [e | ys'] eqn:Hl; simpl.
      * split; [discriminate |]. intros H. inversion H as [| ? y' ? ys'' ? Hrest]; subst.
        apply IH in Hrest. discriminate.
      * split.
        -- intros [= <-]. constructor; [exact Hx | now apply IH].
        -- intros H. inversion H as [| ? y' ? ys'' Hy Hrest]; subst.
           apply IH in Hrest. congruence.
Qed.

Lemma prev_tr_inr (e : JSON) (tr : TableRow) :
  prev_tr (VJson e) = inr tr <-> prev_row_shown e tr.
Proof.
  split.
  - intros H. apply prev_tr_fields in H as (props & q & [= ->] & Hg & Hq & ->).
    now exists props, q.
  - intros (props & q & -> & Hg & Hq & ->). unfold prev_tr, to_string. simpl.
    rewrite Hg. simpl. rewrite Hq. reflexivity.
Qed.

Lemma or_tr_inr (e : JSON) (tr : TableRow) :
  or_tr (VJson e) = inr tr /\ row_accepted tr = true <-> or_row_shown e tr.
Proof.
  split.
  - intros [H Hacc].
    apply or_tr_fields in H as (props & o & lo & hi & p & [= ->] & Ho & Hlo & Hhi & Hp & ->).
    exists props, o, lo, hi, p. repeat split; try assumption.
    unfold row_accepted in Hacc. simpl in Hacc.
    now destruct (valid_child (own_property "term" props)).
  - intros (props & o & lo & hi & p & -> & Hterm & Ho & Hlo & Hhi & Hp & ->).
    split.
    + unfold or_tr. simpl. rewrite Ho, Hlo, Hhi, Hp. reflexivity.
    + unfold row_accepted. simpl. now rewrite Hterm.
Qed.

Lemma Forall2_iff {A B : Type} (P Q : A -> B -> Prop) (l : list A) (k : list B) :
  (forall x y, P x y <-> Q x y) -> Forall2 P l k <-> Forall2 Q l k.
Proof.
  intros HPQ. split; intros H; induction H; constructor; try assumption;
    now apply HPQ.
Qed.

(** X9. What the prevalence table makes of [prevRows]. A falsy value is
    passed through and no table is built. A sequence renders exactly when
    every element is an object whose [group] converts to a string (any
    value but an object with an own [toString] key, or an array holding
    one) and that has a number under [prev]; the table then has one line
    per element, in order, showing [String(group)] (the text [undefined]
    when the field is absent) and [prev] to three decimals. Anything
    else, a truthy value that is no sequence or a sequence with a row that
    fails either condition, throws a TypeError. *)
Theorem prev_section_renders_iff (v : JSValue) (r : Rendered) :
  prev_section v = inr r <->
  (truthy v = false /\ r = RFalsy v)
  \/ (exists elems trs,
        v = VJson (JArr elems) /\ r = RTable trs /\ Forall2 prev_row_shown elems trs).
Proof.
  unfold prev_section. destruct (truthy v) eqn:Ht.
  - split.
    + destruct v as [| [| | | | elems |]]; simpl; try discriminate.
      destruct (map_exn _ elems) as [e | trs] eqn:Hmap; simpl; [discriminate |].
      intros [= <-]. right. exists elems, trs. repeat split.
      apply map_exn_inr in Hmap.
      revert Hmap. apply Forall2_iff. intros x y. split; apply prev_tr_inr.
    + intros [[Hf _] | (elems & trs & -> & -> & Hall)]; [discriminate |].
      simpl.
      assert (Hmap : map_exn (fun x => prev_tr (VJson x)) elems = inr trs).
      { apply map_exn_inr. revert Hall. apply Forall2_iff.
        intros x y. split; apply prev_tr_inr. }
      now rewrite Hmap.
  - split.
    + intros [= <-]. now left.
    + intros [[_ ->] | (elems & trs & -> & _)]; [reflexivity | discriminate].
Qed.

Lemma react_accepts_inr (trs : list TableRow) :
  react_accepts trs = inr tt <-> Forall (fun tr => row_accepted tr = true) trs.
Proof.
  assert (H : forallb row_accepted trs = true
              <-> Forall (fun tr => row_accepted tr = true) trs).
  { induction trs as [| tr trs IH]; simpl.
    - split; [constructor | reflexivity].
    - rewrite andb_true_iff, IH.
      split; [intros [H1 H2]; constructor; auto | intros H; inversion H; auto]. }
  unfold react_accepts. destruct (forallb row_accepted trs).
  - split; [intros _; now apply H | reflexivity].
  - split; [discriminate |]. intros Hall. apply H in Hall. discriminate.
Qed.

Lemma Forall2_right {A B : Type} (P : A -> B -> Prop) (Q : B -> Prop)
    (l : list A) (k : list B) :
  Forall2 P l k -> Forall Q k -> Forall2 (fun x y => P x y /\ Q y) l k.
Proof.
  intros H. induction H; intros HQ; inversion HQ; subst; constructor; auto.
Qed.

Lemma Forall2_right_inv {A B : Type} (P : A -> B -> Prop) (Q : B -> Prop)
    (l : list A) (k : list B) :
  Forall2 (fun x y => P x y /\ Q y) l k -> Forall2 P l k /\ Forall Q k.
Proof.
  intros H. induction H as [| x y l k [HP HQ] _ [IH1 IH2]];
    split; constructor; auto.
Qed.

(** X10. What the odds-ratio table makes of [orRows]. A falsy value is
    passed through and no table is built. A sequence reaches the page
    exactly when every element is an object with numbers under [OR],
    [OR_low], [OR_high] and [P>|z|] and a [term] that React accepts as a
    child (no plain object); the table then has one line per element, in
    order. Anything else fails: a TypeError while the rows are built, or
    React's refusal of an object child afterwards. *)
Theorem or_section_renders_iff (v : JSValue) (r : Rendered) :
  or_section v = inr r <->
  (truthy v = false /\ r = RFalsy v)
  \/ (exists elems trs,
        v = VJson (JArr elems) /\ r = RTable trs /\ Forall2 or_row_shown elems trs).
Proof.
  unfold or_section. destruct (truthy v) eqn:Ht.
  - split.
    + destruct v as [| [| | | | elems |]]; simpl; try discriminate.
      destruct (map_exn _ elems) as [e | trs] eqn:Hmap; simpl; [discriminate |].
      destruct (react_accepts trs) as [e | []] eqn:Hacc; simpl; [discriminate |].
      intros [= <-]. right. exists elems, trs. repeat split.
      apply map_exn_inr in Hmap. apply react_accepts_inr in Hacc.
      pose proof (Forall2_right _ _ _ _ Hmap Hacc) as Hboth.
      revert Hboth. apply Forall2_iff. intros x y. split; apply or_tr_inr.
    + intros [[Hf _] | (elems & trs & -> & -> & Hall)]; [discriminate |].
      simpl.
      assert (Hboth : Forall2 (fun x y => or_tr (VJson x) = inr y
                                         /\ row_accepted y = true) elems trs).
      { revert Hall. apply Forall2_iff. intros x y. split; apply or_tr_inr. }
      apply Forall2_right_inv in Hboth as [Hmap Hacc].
      apply map_exn_inr in Hmap. apply react_accepts_inr in Hacc.
      rewrite Hmap. simpl. now rewrite Hacc.
  - split.
    + intros [= <-]. now left.
    + intros [[_ ->] | (elems & trs & -> & _)]; [reflexivity | discriminate].
Qed.

(** X11. [runPrev] stores whatever JSON the table request returns. When
    that is a truthy value that is no sequence, an error report for
    instance, it is stored in [prevRows] all the same, whatever the plot
    step does, and the next render of the component throws a TypeError
    ([prevRows.map] is not a function). *)
Theorem non_sequence_table_breaks_render (env : Env) (s : AppState) (f : File)
    (res : Response) (data : JSON) :
  file s = Some f ->
  server env (prevalence_request env s f) = Some res ->
  json_result res = Some data ->
  truthy (VJson data) = true ->
  (forall elems, data <> JArr elems) ->
  prevRows (final RunPrev env s) = VJson data
  /\ render (final RunPrev env s) = inl TypeError.
Proof.
  intros Hfile Hres Hdata Htruthy Hseq.
  assert (Hrows : prevRows (final RunPrev env s) = VJson data).
  { unfold final. rewrite (runPrev_run env s f Hfile). cbn zeta.
    rewrite Hres, Hdata.
    destruct (server env (plot_request env s f)) as [plotRes |];
      [destruct (blob_result plotRes) |]; reflexivity. }
  split; [exact Hrows |].
  unfold render, results, prev_section. rewrite Hrows, Htruthy.
  destruct data; try reflexivity. now elim (Hseq elems).
Qed.

(** A column missing on the server: the error report is stored and the
    render throws, although the run resolved. *)
Lemma non_sequence_table_breaks_render_witness :
  prevRows (final RunPrev Scenario.prevalence_error Scenario.by_sex)
  = VJson (JObj [("detail", JStr "Column not found: sex")])
  /\ render (final RunPrev Scenario.prevalence_error Scenario.by_sex) = inl TypeError.
Proof.
  apply (non_sequence_table_breaks_render Scenario.prevalence_error Scenario.by_sex
           Scenario.brfss
           {| status := 400;
              json_result := Some (JObj [("detail", JStr "Column not found: sex")]);
              blob_result := Some "" |}).
  - reflexivity.
  - reflexivity.
  - reflexivity.
  - reflexivity.
  - discriminate.
Defined.

(** A turn of a run goes up to its next request, that request included,
    or to the end of the run when no request is left. *)
Lemma until_fetch_spec (evs : list Event) :
  (requests (fst (until_fetch evs)) = [] /\ snd (until_fetch evs) = [])
  \/ (exists pre r, fst (until_fetch evs) = (pre ++ [EvFetch r])%list /\ requests pre = []).
Proof.
  induction evs as [| ev evs IH]; [left; split; reflexivity |].
  destruct ev; simpl;
    try (destruct (until_fetch evs) as [now later]; simpl in *;
         destruct IH as [[Hnone Hend] | (pre & r' & -> & Hpre)];
         [left; split; assumption |]).
  - right. now exists (EvSetBusy b :: pre), r'.
  - right. now exists [], r.
  - right. now exists (EvSetPrevRows v :: pre), r'.
  - right. now exists (EvSetOrRows v :: pre), r'.
  - right. now exists (EvSetPlotUrl u :: pre), r'.
  - right. now exists (EvAlert msg :: pre), r'.
Qed.

(** X1. [busy] is up exactly while a run is in flight. In a session that
    starts at rest with [busy] down, whatever the user does (choosing
    files and typing also while a request is pending, clicking) and in
    whatever order the pending runs go on, after every action: at most one
    run is in flight, and what it has still to do ends in
    [setBusy(false)]; [busy] is up exactly when one is; the buttons are
    disabled exactly when no file is chosen or a run is in flight. A click
    on a disabled button does nothing; a click on an enabled one raises
    [busy], issues the first request of the handler and leaves the rest of
    its run in flight, so a second run never starts before the first has
    ended. The run in flight goes on by its effects up to and including
    its next request, or to its end when no request is left. *)
Theorem session_busy_tracks_flight (actions : list Action) (s : AppState) (l : Live) :
  busy s = false ->
  l = session actions (at_rest s) ->
  length (in_flight l) <= 1
  /\ Forall closing (in_flight l)
  /\ (busy (shown l) = true <-> in_flight l <> [])
  /\ (disabled (shown l) = true <-> file (shown l) = None \/ in_flight l <> [])
  /\ (forall h env, disabled (shown l) = true -> step l (Click h env) = l)
  /\ (forall h env,
        disabled (shown l) = false ->
        exists req rest,
          events h env (shown l) = EvSetBusy true :: EvFetch req :: rest
          /\ step l (Click h env)
             = {| shown := with_busy true (shown l); in_flight := [rest] |})
  /\ (forall evs,
        in_flight l = [evs] ->
        exists now later,
          evs = (now ++ later)%list
          /\ step l (Resume 0)
             = {| shown := replay now (shown l);
                  in_flight := match later with [] => [] | _ :: _ => [later] end |}
          /\ ((requests now = [] /\ later = [])
              \/ (exists pre r,
                    now = (pre ++ [EvFetch r])%list /\ requests pre = []
                    /\ later <> []))).
Proof.
  intros Hbusy ->.
  assert (Hinv : one_run (session actions (at_rest s))).
  { apply session_one_run. left. split; [reflexivity | exact Hbusy]. }
  set (l := session actions (at_rest s)) in *.
  destruct (one_run_busy _ Hinv) as (Hlen & Hup & Hdown).
  split; [exact Hlen |]. split.
  { destruct Hinv as [[-> _] | (evs & -> & Hclosing & _)]; repeat constructor.
    exact Hclosing. }
  split; [exact Hup |]. split.
  { unfold disabled, canRun. rewrite <- Hup.
    destruct (file (shown l)) as [f |]; destruct (busy (shown l)); simpl;
      split; intros H; try reflexivity; try discriminate; try (now left); try (now right);
      destruct H as [H | H]; discriminate. }
  split.
  { intros h env Hd. simpl. now rewrite Hd. }
  split.
  - intros h env Hd. simpl. rewrite Hd. unfold disabled, canRun in Hd.
    destruct (file (shown l)) as [f |] eqn:Hfile; [| discriminate]. simpl in Hd.
    destruct (events_shape h env (shown l) f Hfile) as (rest & Hev & Hrest).
    exists (first_request h env (shown l) f), rest. split; [exact Hev |].
    rewrite Hev. unfold advance. simpl. rewrite (proj1 Hdown Hd).
    destruct rest as [| ev rest]; [now elim (closing_nonempty [] Hrest) |].
    reflexivity.
  - intros evs Hone.
    assert (Hclosing : closing evs).
    { destruct Hinv as [[Hnone _] | (evs0 & Hone0 & Hc & _)]; congruence. }
    exists (fst (until_fetch evs)), (snd (until_fetch evs)).
    split; [apply until_fetch_app |]. split.
    + simpl. rewrite Hone. simpl. unfold advance.
      destruct (until_fetch evs) as [now later]. simpl.
      destruct later; reflexivity.
    + destruct (until_fetch_spec evs) as [Hend | (pre & r & Hnow & Hpre)];
        [left; exact Hend | right].
      exists pre, r. split; [exact Hnow |]. split; [exact Hpre |].
      intros Hlater. destruct Hclosing as (mid & Hmid & _).
      pose proof (until_fetch_app evs) as Happ.
      rewrite Hnow, Hlater, app_nil_r, Hmid in Happ.
      apply app_inj_tail in Happ as [_ Habs]. discriminate.
Qed.

(** A session in which the user types and clicks again while the
    prevalence request is pending, and changes the file before the plot
    request returns. *)
Lemma session_busy_tracks_flight_witness :
  length (in_flight (session Scenario.impatient (at_rest initial))) <= 1
  /\ Forall closing (in_flight (session Scenario.impatient (at_rest initial)))
  /\ (busy (shown (session Scenario.impatient (at_rest initial))) = true
      <-> in_flight (session Scenario.impatient (at_rest initial)) <> [])
  /\ (disabled (shown (session Scenario.impatient (at_rest initial))) = true
      <-> file (shown (session Scenario.impatient (at_rest initial))) = None
          \/ in_flight (session Scenario.impatient (at_rest initial)) <> [])
  /\ (forall h env,
        disabled (shown (session Scenario.impatient (at_rest initial))) = true ->
        step (session Scenario.impatient (at_rest initial)) (Click h env)
        = session Scenario.impatient (at_rest initial))
  /\ (forall h env,
        disabled (shown (session Scenario.impatient (at_rest initial))) = false ->
        exists req rest,
          events h env (shown (session Scenario.impatient (at_rest initial)))
          = EvSetBusy true :: EvFetch req :: rest
          /\ step (session Scenario.impatient (at_rest initial)) (Click h env)
             = {| shown := with_busy true
                             (shown (session Scenario.impatient (at_rest initial)));
                  in_flight := [rest] |})
  /\ (forall evs,
        in_flight (session Scenario.impatient (at_rest initial)) = [evs] ->
        exists now later,
          evs = (now ++ later)%list
          /\ step (session Scenario.impatient (at_rest initial)) (Resume 0)
             = {| shown := replay now
                             (shown (session Scenario.impatient (at_rest initial)));
                  in_flight := match later with [] => [] | _ :: _ => [later] end |}
          /\ ((requests now = [] /\ later = [])
              \/ (exists pre r,
                    now = (pre ++ [EvFetch r])%list /\ requests pre = []
                    /\ later <> []))).
Proof.
  apply (session_busy_tracks_flight Scenario.impatient initial
           (session Scenario.impatient (at_rest initial))).
  - reflexivity.
  - reflexivity.
Defined.

(** At the end of that session the plot is still awaited, the second click
    has done nothing, and the file is gone from the input. *)
Example impatient_session :
  session Scenario.impatient (at_rest initial)
  = {| shown :=
         with_file None
           (with_prevRows (VJson (JArr (map PrevRow_value Scenario.prev_rows)))
              (with_by "sex" (with_busy true Scenario.loaded)));
       in_flight :=
         [[EvSetPlotUrl "blob:http://localhost:5173/PNG"; EvSetBusy false]] |}.
Proof. reflexivity. Qed.

(** While the prevalence request is pending [busy] is up between two
    actions, the inputs still take what the user types, and the run goes
    on with what its closure held at the click: the plot request carries
    no [by] entry although [by] now reads [sex]. *)
Example busy_is_up_while_pending :
  session [ChooseFiles (Some [Scenario.brfss]);
           Click RunPrev Scenario.table_and_plot; TypeBy "sex"; Resume 0]
    (at_rest initial)
  = {| shown :=
         with_prevRows (VJson (JArr (map PrevRow_value Scenario.prev_rows)))
           (with_by "sex" (with_busy true Scenario.loaded));
       in_flight :=
         [[EvSetPlotUrl "blob:http://localhost:5173/PNG"; EvSetBusy false]] |}
  /\ requests (events RunPrev Scenario.table_and_plot Scenario.loaded)
     = [prevalence_request Scenario.table_and_plot Scenario.loaded Scenario.brfss;
        plot_request Scenario.table_and_plot Scenario.loaded Scenario.brfss]
  /\ form_get "by"
       (body (plot_request Scenario.table_and_plot Scenario.loaded Scenario.brfss))
     = None.
Proof. repeat split. Qed.

Lemma session_app (xs ys : list Action) (l : Live) :
  session (xs ++ ys) l = session ys (session xs l).
Proof. apply fold_left_app. Qed.

(** The sessions in which every run ends before the next action are among
    the sessions: what holds of every session holds of them. *)
Lemma runs_alone_are_sessions (actions : list Action) (s : AppState) :
  session (concat (settled <$> actions)) (at_rest s)
  = at_rest (fold_left run_alone actions s).
Proof.
  revert s. induction actions as [| a actions IH]; intros s; [reflexivity |].
  cbn [fmap list_fmap concat fold_left]. rewrite session_app.
  change (list_fmap _ _ settled actions) with (settled <$> actions).
  assert (H : session (settled a) (at_rest s) = at_rest (run_alone s a)).
  { destruct a as [files | v | v | v | h env | i]; try reflexivity.
    cbn [settled run_alone]. destruct (disabled s) eqn:Hd.
    - unfold session. cbn [fold_left step at_rest shown in_flight]. rewrite Hd.
      reflexivity.
    - exact (uninterrupted_run h env s Hd). }
  rewrite H. apply IH.
Qed.

Lemma js_or_null_or_truthy (t : JSValue) : null_or_truthy (js_or t (VJson JNull)).
Proof.
  unfold js_or, null_or_truthy. destruct (truthy t) eqn:Ht; [now right | now left].
Qed.

(** What a run stores in [orRows] is [null] or truthy. *)
Lemma events_or_ok (h : Handler) (env : Env) (s : AppState) : Forall or_ok (events h env s).
Proof.
  unfold events. destruct (file s) as [f |] eqn:Hfile.
  - destruct h; each_path Hfile; simpl;
      repeat (constructor; [first [exact I | apply js_or_null_or_truthy] |]);
      constructor.
  - rewrite (invoke_without_file h env s Hfile). constructor.
Qed.

Lemma replay_or_ok (evs : list Event) (s : AppState) :
  Forall or_ok evs -> null_or_truthy (orRows s) -> null_or_truthy (orRows (replay evs s)).
Proof.
  intros Hevs. revert s. induction Hevs as [| ev evs Hev _ IH]; intros s Hs; [exact Hs |].
  apply IH. destruct ev; simpl; try exact Hs. exact Hev.
Qed.

(** What a session keeps true of [orRows]: the cell and every value still
    to be stored in it are [null] or truthy. *)
Lemma step_or_ok (l : Live) (a : Action) :
  null_or_truthy (orRows (shown l)) /\ Forall (Forall or_ok) (in_flight l) ->
  null_or_truthy (orRows (shown (step l a)))
  /\ Forall (Forall or_ok) (in_flight (step l a)).
Proof.
  intros [Hs Hq]. destruct a as [files | v | v | v | h env | i];
    try (split; [exact Hs | exact Hq]).
  - simpl. destruct (disabled (shown l)); [split; [exact Hs | exact Hq] |].
    destruct (until_fetch_Forall or_ok _ (events_or_ok h env (shown l))) as [Hnow Hlater].
    unfold advance.
    destruct (until_fetch (events h env (shown l))) as [now later]. simpl in *.
    destruct later as [| ev later]; simpl.
    + split; [now apply replay_or_ok | exact Hq].
    + split; [now apply replay_or_ok |]. apply Forall_app. split; [exact Hq |].
      now constructor.
  - simpl. destruct (in_flight l !! i) as [evs |] eqn:Hi; [| split; [exact Hs | exact Hq]].
    pose proof (Forall_lookup_1 _ _ _ _ Hq Hi) as Hevs.
    destruct (until_fetch_Forall or_ok evs Hevs) as [Hnow Hlater].
    unfold advance. destruct (until_fetch evs) as [now later]. simpl in *.
    destruct later as [| ev later]; simpl.
    + split; [now apply replay_or_ok | now apply Forall_delete].
    + split; [now apply replay_or_ok | now apply Forall_insert].
Qed.

(** X12. [orRows] is always [null] or truthy. From a state where it is,
    the first render for one, no sequence of actions brings a falsy value
    other than [null] into it, whatever the server answers and however the
    runs in flight interleave with the user: the guard [orRows && ...] of
    the results never lets a stray [0], [false] or empty string through. *)
Theorem session_orRows_null_or_truthy (actions : list Action) (s : AppState) :
  null_or_truthy (orRows s) ->
  null_or_truthy (orRows (shown (session actions (at_rest s)))).
Proof.
  intros Hs.
  assert (H : forall l,
             null_or_truthy (orRows (shown l)) /\ Forall (Forall or_ok) (in_flight l) ->
             null_or_truthy (orRows (shown (session actions l)))
             /\ Forall (Forall or_ok) (in_flight (session actions l))).
  { induction actions as [| a actions IH]; intros l Hl; [exact Hl |].
    rewrite session_cons. apply IH, step_or_ok, Hl. }
  apply (H (at_rest s)). split; [exact Hs | constructor].
Qed.

(** A regression whose table field is the number zero. *)
Lemma session_orRows_null_or_truthy_witness :
  null_or_truthy
    (orRows (shown (session [ChooseFiles (Some [Scenario.brfss]);
                             Click RunLogit Scenario.logit_zero; Resume 0]
                      (at_rest initial)))).
Proof.
  apply (session_orRows_null_or_truthy
           [ChooseFiles (Some [Scenario.brfss]); Click RunLogit Scenario.logit_zero;
            Resume 0]
           initial).
  left. reflexivity.
Defined.

(** [prevRows] has no such guarantee: a body [0] is stored as it is, and
    the guard [prevRows && ...] hands the [0] to the page. *)
Example prevRows_can_hold_zero :
  prev_section
    (prevRows (shown (session [ChooseFiles (Some [Scenario.brfss]);
                               Click RunPrev Scenario.prevalence_zero; Resume 0]
                        (at_rest initial))))
  = inr (RFalsy (VJson (JNum 0%float))).
Proof. reflexivity. Qed.

(** X13. Only the first file of a selection is ever sent. Every request
    issued by a render that follows a change of the file input carries the
    first file of that selection under [file]; after an empty or absent
    selection there is no request at all. *)
Theorem first_file_is_uploaded (h : Handler) (env : Env) (s : AppState)
    (files : option (list File)) (req : Request) :
  In req (requests (events h env (on_file_change files s))) ->
  exists f rest,
    files = Some (f :: rest) /\ form_get "file" (body req) = Some (FFile f).
Proof.
  intros Hin.
  destruct (issued_requests h env _ req Hin) as (f & Hfile & Hreq).
  destruct files as [[| f' rest] |]; simpl in Hfile; try discriminate.
  injection Hfile as ->. exists f, rest. split; [reflexivity |].
  destruct Hreq as [-> | [-> ->]]; [destruct h |]; reflexivity.
Qed.

(** Two files selected: the second is not sent. *)
Lemma first_file_is_uploaded_witness :
  exists f rest,
    Some [Scenario.brfss; Scenario.second_file] = Some (f :: rest)
    /\ form_get "file"
         (body (recode_request Scenario.offline
                  (on_file_change (Some [Scenario.brfss; Scenario.second_file]) initial)
                  Scenario.brfss))
       = Some (FFile f).
Proof.
  apply (first_file_is_uploaded RunRecode Scenario.offline initial
           (Some [Scenario.brfss; Scenario.second_file])).
  simpl. left. reflexivity.
Defined.

(** X14. After a [runPrev] that resolves on a sequence of typed rows, the
    component renders, provided the odds-ratio table it already held
    renders: the inputs as they were, the buttons enabled, the table with
    one line per row, the image whose source is the object URL made of the
    returned blob (no image if that URL were empty), and the odds-ratio
    table unchanged. *)
Theorem resolved_prevalence_view (env : Env) (s : AppState) (f : File)
    (res plotRes : Response) (rows : list PrevRow) (b : Blob) (o : Rendered) :
  file s = Some f ->
  server env (prevalence_request env s f) = Some res ->
  json_result res = Some (JArr (map PrevRow_value rows)) ->
  server env (plot_request env s f) = Some plotRes ->
  blob_result plotRes = Some b ->
  or_section (orRows s) = inr o ->
  render (final RunPrev env s)
  = inr {| by_input := by_ s; weight_input := weightCol s;
           covars_input := covars s; buttons_disabled := false;
           results_view :=
             {| prev_view := RTable (map PrevRow_cells rows);
                plot_view := if truthy_str (createObjectURL env b)
                             then Some (createObjectURL env b) else None;
                or_view := o |} |}.
Proof.
  intros Hfile Hres Hdata Hplot Hblob Hor.
  unfold final. rewrite (runPrev_run env s f Hfile). cbn zeta.
  rewrite Hres, Hdata, Hplot, Hblob.
  unfold render, results. simpl prevRows. simpl orRows. simpl plotUrl.
  rewrite prev_section_typed, Hor. simpl.
  unfold disabled, canRun. simpl. rewrite Hfile. reflexivity.
Qed.

(** Both endpoints answer; nothing was shown before. *)
Lemma resolved_prevalence_view_witness :
  render (final RunPrev Scenario.table_and_plot Scenario.by_sex)
  = inr {| by_input := "sex"; weight_input := "_LLCPWT";
           covars_input := ""; buttons_disabled := false;
           results_view :=
             {| prev_view := RTable (map PrevRow_cells Scenario.prev_rows);
                plot_view := Some "blob:http://localhost:5173/PNG";
                or_view := RFalsy (VJson JNull) |} |}.
Proof.
  apply (resolved_prevalence_view Scenario.table_and_plot Scenario.by_sex Scenario.brfss
           (Scenario.json_response (JArr (map PrevRow_value Scenario.prev_rows)))
           (Scenario.png_response "PNG") Scenario.prev_rows "PNG"
           (RFalsy (VJson JNull))).
  - reflexivity.
  - reflexivity.
  - reflexivity.
  - reflexivity.
  - reflexivity.
  - reflexivity.
Defined.

(** X15. As X11, for the regression: a [table] field that is truthy and no
    sequence is stored in [orRows] and the next render throws. *)
Theorem non_sequence_or_table_breaks_render (env : Env) (s : AppState) (f : File)
    (res : Response) (props : list (string * JSON)) (t : JSON) (p : Rendered) :
  file s = Some f ->
  server env (logit_request env s f) = Some res ->
  json_result res = Some (JObj props) ->
  own_property "table" props = VJson t ->
  truthy (VJson t) = true ->
  (forall elems, t <> JArr elems) ->
  prev_section (prevRows s) = inr p ->
  outcome RunLogit env s = inr tt
  /\ orRows (final RunLogit env s) = VJson t
  /\ render (final RunLogit env s) = inl TypeError.
Proof.
  intros Hfile Hres Hdata Htable Htruthy Hseq Hprev.
  unfold outcome, final. rewrite (runLogit_run env s f Hfile). cbn zeta.
  rewrite Hres, Hdata. simpl get_field. rewrite Htable.
  unfold js_or. rewrite Htruthy. simpl.
  split; [reflexivity |]. split; [reflexivity |].
  unfold render, results. simpl prevRows. simpl orRows. rewrite Hprev. simpl.
  unfold or_section. rewrite Htruthy.
  destruct t; try reflexivity. now elim (Hseq elems).
Qed.

(** A table sent as text. *)
Lemma non_sequence_or_table_breaks_render_witness :
  outcome RunLogit Scenario.logit_text Scenario.loaded = inr tt
  /\ orRows (final RunLogit Scenario.logit_text Scenario.loaded)
     = VJson (JStr "term,OR")
  /\ render (final RunLogit Scenario.logit_text Scenario.loaded) = inl TypeError.
Proof.
  apply (non_sequence_or_table_breaks_render Scenario.logit_text Scenario.loaded
           Scenario.brfss (Scenario.json_response (JObj [("table", JStr "term,OR")]))
           [("table", JStr "term,OR")] (JStr "term,OR") (RFalsy (VJson JNull))).
  - reflexivity.
  - reflexivity.
  - reflexivity.
  - reflexivity.
  - reflexivity.
  - discriminate.
  - reflexivity.
Defined.

(** The state a run leaves is the state it started from with the setter
    calls of its trace applied. *)
Lemma final_replay (h : Handler) (env : Env) (s : AppState) :
  final h env s = replay (events h env s) s.
Proof.
  unfold final, events. destruct (file s) as [f |] eqn:Hfile.
  - destruct h; each_path Hfile; reflexivity.
  - rewrite (invoke_without_file h env s Hfile). reflexivity.
Qed.

(** What a run does depends on the four inputs only, not on what is
    displayed or on [busy]. *)
Lemma events_inputs_only (h : Handler) (env : Env) (s s' : AppState) :
  same_inputs s s' -> events h env s' = events h env s.
Proof.
  intros (Hf & Hb & Hc & Hw). unfold events.
  destruct (file s) as [f |] eqn:Hfile.
  - assert (Hfile' : file s' = Some f) by congruence.
    destruct h.
    + rewrite (runRecode_run env s f Hfile), (runRecode_run env s' f Hfile').
      cbn zeta. unfold recode_request. rewrite <- Hw.
      destruct (server env _) as [res |]; [destruct (json_result res) as [data |] |];
        [destruct (get_length _); [| destruct (to_string _); [| destruct (get_first _)]]
        | |]; reflexivity.
    + rewrite (runPrev_run env s f Hfile), (runPrev_run env s' f Hfile').
      cbn zeta. unfold prevalence_request, plot_request. rewrite <- Hw, <- Hb.
      destruct (server env _) as [res |]; [destruct (json_result res) as [data |] |];
        [destruct (server env _) as [plotRes |]; [destruct (blob_result plotRes) |] | |];
        reflexivity.
    + rewrite (runLogit_run env s f Hfile), (runLogit_run env s' f Hfile').
      cbn zeta. unfold logit_request. rewrite <- Hw, <- Hc.
      destruct (server env _) as [res |]; [destruct (json_result res) as [data |] |];
        [destruct (get_field _ _) | |]; reflexivity.
  - assert (Hfile' : file s' = None) by congruence.
    now rewrite (invoke_without_file h env s Hfile),
      (invoke_without_file h env s' Hfile').
Qed.

Lemma final_same_inputs (h : Handler) (env : Env) (s : AppState) :
  same_inputs s (final h env s).
Proof.
  unfold same_inputs, final. destruct (file s) as [f |] eqn:Hfile.
  - destruct h; each_path Hfile; simpl; repeat split; congruence.
  - rewrite (invoke_without_file h env s Hfile). simpl. repeat split; congruence.
Qed.

Lemma API_BASE_same (env env' : Env) :
  VITE_API_BASE env' = VITE_API_BASE env -> API_BASE env' = API_BASE env.
Proof. unfold API_BASE. now intros ->. Qed.

(** Against a server that answers alike, from states with the same
    inputs, two runs of a handler end alike and have the same events but
    for the object URL. *)
Lemma invoke_same_server (h : Handler) (env env' : Env) (s s' : AppState) :
  same_inputs s s' ->
  VITE_API_BASE env' = VITE_API_BASE env ->
  (forall req, server env' req = server env req) ->
  fst (invoke h env' s') = fst (invoke h env s)
  /\ map forget_plot (trace (snd (invoke h env' s')))
     = map forget_plot (trace (snd (invoke h env s))).
Proof.
  intros (Hf & Hb & Hc & Hw) Hbase Hsrv. apply API_BASE_same in Hbase.
  destruct (file s) as [f |] eqn:Hfile.
  - assert (Hfile' : file s' = Some f) by congruence.
    destruct h.
    + rewrite (runRecode_run env s f Hfile), (runRecode_run env' s' f Hfile').
      cbn zeta. unfold recode_request. rewrite <- Hw, Hbase, !Hsrv.
      destruct (server env _) as [res |]; [destruct (json_result res) as [data |] |];
        [destruct (get_length _); [| destruct (to_string _); [| destruct (get_first _)]]
        | |]; split; reflexivity.
    + rewrite (runPrev_run env s f Hfile), (runPrev_run env' s' f Hfile').
      cbn zeta. unfold prevalence_request, plot_request.
      rewrite <- Hw, <- Hb, Hbase, !Hsrv.
      destruct (server env _) as [res |]; [destruct (json_result res) as [data |] |];
        [destruct (server env _) as [plotRes |]; [destruct (blob_result plotRes) |] | |];
        split; reflexivity.
    + rewrite (runLogit_run env s f Hfile), (runLogit_run env' s' f Hfile').
      cbn zeta. unfold logit_request. rewrite <- Hw, <- Hc, Hbase, !Hsrv.
      destruct (server env _) as [res |]; [destruct (json_result res) as [data |] |];
        [destruct (get_field _ _) | |]; split; reflexivity.
  - assert (Hfile' : file s' = None) by congruence.
    rewrite (invoke_without_file h env s Hfile), (invoke_without_file h env' s' Hfile').
    split; reflexivity.
Qed.

Lemma requests_forget_plot (evs : list Event) :
  requests (map forget_plot evs) = requests evs.
Proof.
  induction evs as [| ev evs IH]; [reflexivity |].
  destruct ev; simpl; now rewrite IH.
Qed.

(** Blanking [plotUrl] after a replay is replaying the blanked events. *)
Lemma forget_plot_replay (evs : list Event) (s : AppState) :
  with_plotUrl "" (replay evs s) = replay (map forget_plot evs) (with_plotUrl "" s).
Proof.
  revert s. induction evs as [| ev evs IH]; intros s; [reflexivity |].
  unfold replay in *. simpl. rewrite IH. destruct ev; reflexivity.
Qed.

(** Only [runPrev] sets the plot URL. *)
Lemma no_plot_event (h : Handler) (env : Env) (s : AppState) :
  h <> RunPrev -> map forget_plot (events h env s) = events h env s.
Proof.
  intros Hh. unfold events. destruct (file s) as [f |] eqn:Hfile.
  - destruct h; try (now elim Hh); each_path Hfile; reflexivity.
  - rewrite (invoke_without_file h env s Hfile). reflexivity.
Qed.

(** X16. Clicking the same button again against a server that answers as
    before changes nothing but the plot. The second run, in a world with
    the same API base and the same answers but its own object URLs, ends
    as the first did, issues the same requests and calls the same setters
    with the same values, the object URL apart; it leaves every cell but
    [plotUrl] as the first run left it. [runRecode] and [runLogit] leave
    the whole state as it was; a [runPrev] on a file that resolves replaces
    the URL minted for the blob in the first world by the one minted for
    the same blob in the second. *)
Theorem repeated_click_changes_only_plot (h : Handler) (env env' : Env) (s : AppState) :
  VITE_API_BASE env' = VITE_API_BASE env ->
  (forall req, server env' req = server env req) ->
  outcome h env' (final h env s) = outcome h env s
  /\ requests (events h env' (final h env s)) = requests (events h env s)
  /\ map forget_plot (events h env' (final h env s)) = map forget_plot (events h env s)
  /\ with_plotUrl "" (final h env' (final h env s)) = with_plotUrl "" (final h env s)
  /\ (h <> RunPrev -> final h env' (final h env s) = final h env s)
  /\ (h = RunPrev -> file s <> None -> outcome h env s = inr tt ->
      exists b, plotUrl (final h env s) = createObjectURL env b
                /\ plotUrl (final h env' (final h env s)) = createObjectURL env' b).
Proof.
  intros Hbase Hsrv.
  destruct (invoke_same_server h env env' s (final h env s)
              (final_same_inputs h env s) Hbase Hsrv) as [Hout Hev].
  fold (outcome h env' (final h env s)) in Hout. fold (outcome h env s) in Hout.
  fold (events h env' (final h env s)) in Hev. fold (events h env s) in Hev.
  assert (Hblank : with_plotUrl "" (final h env' (final h env s))
                   = with_plotUrl "" (final h env s)).
  { rewrite (final_replay h env' (final h env s)), forget_plot_replay, Hev.
    rewrite (final_replay h env s), forget_plot_replay.
    unfold events. destruct (file s) as [f |] eqn:Hfile.
    - destruct h; each_path Hfile; reflexivity.
    - rewrite (invoke_without_file h env s Hfile). reflexivity. }
  split; [exact Hout |].
  split; [now rewrite <- (requests_forget_plot (events h env' _)), Hev,
            requests_forget_plot |].
  split; [exact Hev |]. split; [exact Hblank |]. split.
  - intros Hh.
    rewrite (final_replay h env' (final h env s)).
    rewrite <- (no_plot_event h env' (final h env s) Hh), Hev, (no_plot_event h env s Hh).
    rewrite (final_replay h env s).
    unfold events. destruct (file s) as [f |] eqn:Hfile.
    + destruct h; each_path Hfile; reflexivity.
    + rewrite (invoke_without_file h env s Hfile). reflexivity.
  - intros -> Hsome Hres.
    destruct (file s) as [f |] eqn:Hfile.
    + assert (Hfile' : file (final RunPrev env s) = Some f)
        by now rewrite file_unchanged.
      destruct (final_same_inputs RunPrev env s) as (_ & Hb & _ & Hw).
      revert Hres. unfold outcome.
      unfold final at 2. rewrite (runPrev_run env' (final RunPrev env s) f Hfile').
      cbn zeta. unfold prevalence_request, plot_request.
      rewrite <- Hw, <- Hb, (API_BASE_same env env' Hbase), !Hsrv.
      fold (prevalence_request env s f). fold (plot_request env s f).
      unfold final. rewrite (runPrev_run env s f Hfile). cbn zeta.
      destruct (server env (prevalence_request env s f)) as [res |];
        [destruct (json_result res) as [data |] |];
        [destruct (server env (plot_request env s f)) as [plotRes |];
         [destruct (blob_result plotRes) as [b |] |] | |];
        simpl; try discriminate.
      intros _. exists b. split; reflexivity.
    + now elim Hsome.
Qed.

(** The same server, another document: the blob gets another URL. *)
Lemma repeated_click_changes_only_plot_witness :
  outcome RunPrev Scenario.table_and_plot_again
    (final RunPrev Scenario.table_and_plot Scenario.by_sex)
  = outcome RunPrev Scenario.table_and_plot Scenario.by_sex
  /\ requests (events RunPrev Scenario.table_and_plot_again
                 (final RunPrev Scenario.table_and_plot Scenario.by_sex))
     = requests (events RunPrev Scenario.table_and_plot Scenario.by_sex)
  /\ map forget_plot (events RunPrev Scenario.table_and_plot_again
                        (final RunPrev Scenario.table_and_plot Scenario.by_sex))
     = map forget_plot (events RunPrev Scenario.table_and_plot Scenario.by_sex)
  /\ with_plotUrl "" (final RunPrev Scenario.table_and_plot_again
                        (final RunPrev Scenario.table_and_plot Scenario.by_sex))
     = with_plotUrl "" (final RunPrev Scenario.table_and_plot Scenario.by_sex)
  /\ (RunPrev <> RunPrev ->
      final RunPrev Scenario.table_and_plot_again
        (final RunPrev Scenario.table_and_plot Scenario.by_sex)
      = final RunPrev Scenario.table_and_plot Scenario.by_sex)
  /\ (RunPrev = RunPrev -> file Scenario.by_sex <> None ->
      outcome RunPrev Scenario.table_and_plot Scenario.by_sex = inr tt ->
      exists b,
        plotUrl (final RunPrev Scenario.table_and_plot Scenario.by_sex)
        = createObjectURL Scenario.table_and_plot b
        /\ plotUrl (final RunPrev Scenario.table_and_plot_again
                      (final RunPrev Scenario.table_and_plot Scenario.by_sex))
           = createObjectURL Scenario.table_and_plot_again b).
Proof.
  apply (repeated_click_changes_only_plot RunPrev Scenario.table_and_plot
           Scenario.table_and_plot_again Scenario.by_sex).
  - reflexivity.
  - intros req. reflexivity.
Defined.

(** The second click does change the state: the image gets a new source. *)
Example second_click_changes_plot :
  plotUrl (final RunPrev Scenario.table_and_plot Scenario.by_sex)
  = "blob:http://localhost:5173/PNG"
  /\ plotUrl (final RunPrev Scenario.table_and_plot_again
                (final RunPrev Scenario.table_and_plot Scenario.by_sex))
     = "blob:http://localhost:5173/0b51f7c2-PNG"
  /\ final RunPrev Scenario.table_and_plot_again
       (final RunPrev Scenario.table_and_plot Scenario.by_sex)
     <> final RunPrev Scenario.table_and_plot Scenario.by_sex.
Proof. repeat split. discriminate. Qed.

(** X17. Two different handlers commute: each reads the inputs only and
    writes its own result cells, so running one and then the other leaves
    the same state in either order, each against its own server. *)
Theorem different_handlers_commute (h1 h2 : Handler) (e1 e2 : Env) (s : AppState) :
  h1 <> h2 ->
  final h2 e2 (final h1 e1 s) = final h1 e1 (final h2 e2 s).
Proof.
  intros Hne.
  rewrite (final_replay h2 e2 (final h1 e1 s)), (final_replay h1 e1 (final h2 e2 s)).
  rewrite (events_inputs_only h2 e2 s _ (final_same_inputs h1 e1 s)).
  rewrite (events_inputs_only h1 e1 s _ (final_same_inputs h2 e2 s)).
  rewrite (final_replay h1 e1 s), (final_replay h2 e2 s).
  unfold events. destruct (file s) as [f |] eqn:Hfile.
  - destruct h1, h2; try (now elim Hne);
      each_path Hfile; each_path Hfile; reflexivity.
  - rewrite (invoke_without_file h1 e1 s Hfile), (invoke_without_file h2 e2 s Hfile).
    reflexivity.
Qed.

(** Regression first or prevalence first. *)
Lemma different_handlers_commute_witness :
  final RunPrev Scenario.table_and_plot (final RunLogit Scenario.logit_ok Scenario.by_sex)
  = final RunLogit Scenario.logit_ok (final RunPrev Scenario.table_and_plot Scenario.by_sex).
Proof.
  apply (different_handlers_commute RunLogit RunPrev Scenario.logit_ok
           Scenario.table_and_plot Scenario.by_sex).
  discriminate.
Defined.

End AppExtra.
